(** * node-jscs: the configuration engine ([lib/config/configuration.js])

    A shallow embedding of [Configuration] (the browser/Rhino-compatible base
    engine) and the properties of its [load] / [_processConfig] pipeline.
    [NodeConfiguration] overrides the two loaders for string arguments,
    which it resolves through [require] and [glob]; it is not embedded
    here.

    Conventions of the embedding
    - A JavaScript object used as a dictionary is an association list whose
      order is the order [Object.keys] enumerates it in, and a property that
      is assigned for the first time goes last. Names that are array
      indices, which JavaScript enumerates first, get no special treatment:
      where a statement below speaks of key order, the keys are copied in
      [Object.keys] order into an object that was empty, or replace a key
      already there, and the two orders agree.
    - A read [obj[key]] with an arbitrary [key] finds the object's own
      property or, failing that, the member of that name that every object
      inherits from [Object.prototype]; see [readProperty].
    - Parameters have the types their JSDoc gives them: a configuration and
      a preset are objects, a registered rule is a Rule.
    - Exceptions do not roll the engine back: a computation returns a
      completion (normal or thrown) together with the state it reached.
    - Numbers carry integers only; that is all truthiness and [typeof] need. *)

From Stdlib Require Import String List Bool ZArith.
Import ListNotations.
Open Scope string_scope.

(** ** Values *)

(** What [throw] can carry here: [assert] raises an [AssertionError] with the
    given message, the runtime raises a [TypeError] when a non-function is
    called or a property is read off [undefined], and [load] raises a plain
    [Error]. *)
Inductive JsError : Type :=
| AssertionError (message : string)
| TypeError
| Error (message : string).

(** Modelled from the spec: the rule modules ([lib/rules/...]) are not among
    the sources. A Rule is an opaque entity with the capability set
    [getOptionName() -> string] and [configure(settings)], the latter
    accepting any settings and side-effecting the rule's own state only.
    [ruleId] stands for the identity of the rule object. *)
Record Rule : Type := mkRule {
  ruleId : nat;
  getOptionName : string
}.

(** Plain data, as JSON has it: what the properties of a plain object
    hold. An object with methods is no plain object; the only such objects
    here are the rules. *)
#[local] Unset Elimination Schemes.
Inductive data : Type :=
| DNull
| DBool (b : bool)
| DNumber (n : Z)
| DString (s : string)
| DArray (elements : list data)
| DObject (properties : list (string * data)).
#[local] Set Elimination Schemes.

(** Values a configuration can hold. A function value is a plugin
    initialiser; [VObject] is a plain object; [VRule r] is an object that
    answers [getOptionName()] with the option name of [r].

    Modelled from the spec: a plugin's body is user code; it is expected to
    call [registerRule] / [registerPreset] on the engine it receives, so a
    body is a sequence of such calls (or a [throw]). *)
#[local] Unset Elimination Schemes.
Inductive value : Type :=
| VUndefined
| VNull
| VBool (b : bool)
| VNumber (n : Z)
| VString (s : string)
| VArray (elements : list value)
| VObject (properties : list (string * data))
| VFunction (body : list statement)
| VRule (r : Rule)
with statement : Type :=
| CallRegisterRule (r : Rule)
| CallRegisterPreset (presetName : string) (presetConfig : list (string * value))
| ThrowStatement (e : JsError).
#[local] Set Elimination Schemes.

Definition object : Type := list (string * value).

(** Plain data as a value. *)
Fixpoint inject (d : data) : value :=
  match d with
  | DNull => VNull
  | DBool b => VBool b
  | DNumber n => VNumber n
  | DString s => VString s
  | DArray l => VArray (map inject l)
  | DObject props => VObject props
  end.

(** [Boolean(v)] / the test of an [if]. *)
Definition ToBoolean (v : value) : bool :=
  match v with
  | VUndefined | VNull => false
  | VBool b => b
  | VNumber n => negb (n =? 0)%Z
  | VString s => negb (s =? "")
  | VArray _ | VObject _ | VFunction _ | VRule _ => true
  end.

Definition typeof (v : value) : string :=
  match v with
  | VUndefined => "undefined"
  | VNull => "object"
  | VBool _ => "boolean"
  | VNumber _ => "number"
  | VString _ => "string"
  | VArray _ | VObject _ | VRule _ => "object"
  | VFunction _ => "function"
  end.

(** [Array.isArray(v)]. *)
Definition isArray (v : value) : bool :=
  match v with
  | VArray _ => true
  | _ => false
  end.

(** ** Objects as ordered dictionaries *)

Section Dictionary.
Context {A : Type}.

(** [Object.keys(o)]. *)
Definition keys (o : list (string * A)) : list string := map fst o.

(** The own property [o[key]], if there is one. *)
Fixpoint lookup (o : list (string * A)) (key : string) : option A :=
  match o with
  | [] => None
  | (k, v) :: o' => if k =? key then Some v else lookup o' key
  end.

(** [o[key] = v]: an existing property keeps its place, a new one goes
    last (see the conventions for names that are array indices). *)
Fixpoint assign (o : list (string * A)) (key : string) (v : A)
  : list (string * A) :=
  match o with
  | [] => [(key, v)]
  | (k, w) :: o' =>
      if k =? key then (k, v) :: o' else (k, w) :: assign o' key v
  end.

(** [delete o[key]]. *)
Definition remove (o : list (string * A)) (key : string)
  : list (string * A) :=
  filter (fun p => negb (fst p =? key)) o.
End Dictionary.

(** [config[key]] as a value: a missing property reads [undefined]. *)
Definition Get (o : object) (key : string) : value :=
  match lookup o key with
  | Some v => v
  | None => VUndefined
  end.

(** The members every plain object inherits from [Object.prototype]: those
    of ECMAScript 5.1 (15.2.4) and the legacy ones nodejs and the browsers
    add. Each is a function or, for [__proto__], an object -- truthy. *)
Definition Object_prototype_members : list string :=
  ["constructor"; "toString"; "toLocaleString"; "valueOf"; "hasOwnProperty";
   "isPrototypeOf"; "propertyIsEnumerable"; "__proto__";
   "__defineGetter__"; "__defineSetter__";
   "__lookupGetter__"; "__lookupSetter__"].

Definition inheritedFromObjectPrototype (key : string) : bool :=
  existsb (String.eqb key) Object_prototype_members.

(** What [obj[key]] finds in a plain object used as a dictionary. *)
Inductive property (A : Type) : Type :=
| OwnProperty (a : A)
| InheritedMember
| NoProperty.
Arguments OwnProperty {A} a.
Arguments InheritedMember {A}.
Arguments NoProperty {A}.

Definition readProperty {A} (o : list (string * A)) (key : string)
  : property A :=
  match lookup o key with
  | Some a => OwnProperty a
  | None =>
      if inheritedFromObjectPrototype key then InheritedMember
      else NoProperty
  end.

(** The keys of the table of lines 3-9. *)
Definition reservedKeys : list string :=
  ["plugins"; "preset"; "excludeFiles"; "additionalRules"; "fileExtensions"].

(** The truthiness of [BUILTIN_OPTIONS[key]]: [true] for the five keys of
    the table, and truthy as well for every name the table, a plain object,
    inherits. *)
Definition BUILTIN_OPTIONS (key : string) : bool :=
  (key =? "plugins") || (key =? "preset") || (key =? "excludeFiles")
  || (key =? "additionalRules") || (key =? "fileExtensions")
  || inheritedFromObjectPrototype key.

(** ** Engine state *)

(** The fields set by the constructor (lines 17-23). [_configuredRules] is
    [Some l] for an array and [None] for [undefined]. *)
Record Configuration : Type := mkConfiguration {
  _presets : list (string * object);
  _rules : list (string * Rule);
  _configuredRules : option (list Rule);
  _fileExtensions : list value;
  _excludedFiles : list value
}.

(** The engine together with the record of every [rule.configure(settings)]
    call made so far, oldest first. *)
Record State : Type := mkState {
  this : Configuration;
  configureCalls : list (Rule * value)
}.

(** [new Configuration()]. *)
Definition newConfiguration : Configuration :=
  {| _presets := [];
     _rules := [];
     _configuredRules := Some [];
     _fileExtensions := [VString ".js"];
     _excludedFiles := [] |}.

Definition freshState : State :=
  {| this := newConfiguration; configureCalls := [] |}.

Definition set_presets (p : list (string * object)) (c : Configuration) :=
  {| _presets := p;
     _rules := _rules c;
     _configuredRules := _configuredRules c;
     _fileExtensions := _fileExtensions c;
     _excludedFiles := _excludedFiles c |}.

Definition set_rules (r : list (string * Rule)) (c : Configuration) :=
  {| _presets := _presets c;
     _rules := r;
     _configuredRules := _configuredRules c;
     _fileExtensions := _fileExtensions c;
     _excludedFiles := _excludedFiles c |}.

Definition set_configuredRules (l : option (list Rule)) (c : Configuration) :=
  {| _presets := _presets c;
     _rules := _rules c;
     _configuredRules := l;
     _fileExtensions := _fileExtensions c;
     _excludedFiles := _excludedFiles c |}.

Definition set_fileExtensions (l : list value) (c : Configuration) :=
  {| _presets := _presets c;
     _rules := _rules c;
     _configuredRules := _configuredRules c;
     _fileExtensions := l;
     _excludedFiles := _excludedFiles c |}.

Definition set_excludedFiles (l : list value) (c : Configuration) :=
  {| _presets := _presets c;
     _rules := _rules c;
     _configuredRules := _configuredRules c;
     _fileExtensions := _fileExtensions c;
     _excludedFiles := l |}.

Definition update_this (f : Configuration -> Configuration) (s : State) :=
  {| this := f (this s); configureCalls := configureCalls s |}.

(** ** Computations that mutate the engine and may throw *)

Inductive completion (A : Type) : Type :=
| Normal (a : A)
| Throw (e : JsError).
Arguments Normal {A} a.
Arguments Throw {A} e.

Definition M (A : Type) : Type := State -> completion A * State.

Definition ret {A} (a : A) : M A := fun s => (Normal a, s).

Definition throw {A} (e : JsError) : M A := fun s => (Throw e, s).

Definition bind {A B} (m : M A) (f : A -> M B) : M B :=
  fun s =>
    match m s with
    | (Normal a, s') => f a s'
    | (Throw e, s') => (Throw e, s')
    end.

Declare Scope js_scope.
Delimit Scope js_scope with js.
Notation "x <- m ;; k" := (bind m (fun x => k))
  (at level 61, m at next level, right associativity) : js_scope.
Notation "m ;; k" := (bind m (fun _ => k))
  (at level 61, right associativity) : js_scope.
Open Scope js_scope.

Definition modify (f : Configuration -> Configuration) : M unit :=
  fun s => (Normal tt, update_this f s).

Definition read {A} (f : Configuration -> A) : M A :=
  fun s => (Normal (f (this s)), s).

(** [assert(condition, message)]. *)
Definition assert (condition : bool) (message : string) : M unit :=
  if condition then ret tt else throw (AssertionError message).

(** [list.forEach(f, this)]: stops at the first element whose callback
    throws. *)
Fixpoint forEach {A} (l : list A) (f : A -> M unit) : M unit :=
  match l with
  | [] => ret tt
  | x :: l' => f x ;; forEach l' f
  end.

(** [v.forEach(f, this)] for a value [v] computed at run time: only an array
    has the method. *)
Definition Array_forEach (v : value) (f : value -> M unit) : M unit :=
  match v with
  | VArray l => forEach l f
  | _ => throw TypeError
  end.

(** [v.plugins] for a value [v] computed at run time. Only a plain object can
    own such a property; arrays, functions and primitives read [undefined],
    and reading a property off [undefined] or [null] is a TypeError. *)
Definition get_plugins (v : value) : M value :=
  match v with
  | VObject props =>
      ret (match lookup props "plugins" with
           | Some d => inject d
           | None => VUndefined
           end)
  | VUndefined | VNull => throw TypeError
  | _ => ret VUndefined
  end.

(** ** The registries (lines 161-173) *)

(** [rule.configure(settings)]. *)
Definition configure (rule : Rule) (settings : value) : M unit :=
  fun s =>
    (Normal tt,
     {| this := this s;
        configureCalls := (configureCalls s ++ [(rule, settings)])%list |}).

(** [registerRule(rule)]: [this._rules[rule.getOptionName()] = rule]. *)
Definition registerRule (rule : Rule) : M unit :=
  modify (fun c => set_rules (assign (_rules c) (getOptionName rule) rule) c).

(** [registerPreset(presetName, presetConfig)]. *)
Definition registerPreset (presetName : string) (presetConfig : object)
  : M unit :=
  modify (fun c => set_presets (assign (_presets c) presetName presetConfig) c).

(** One statement of a plugin body, run against the engine. *)
Definition exec (st : statement) : M unit :=
  match st with
  | CallRegisterRule r => registerRule r
  | CallRegisterPreset name cfg => registerPreset name cfg
  | ThrowStatement e => throw e
  end.

(** [plugin(this)]. *)
Definition call (f : value) : M unit :=
  match f with
  | VFunction body => forEach body exec
  | _ => throw TypeError
  end.

(** ** Loaders (lines 140-154) *)

Definition InvalidPlugin : JsError :=
  AssertionError "plugin should be a function".

Definition InvalidAdditionalRule : JsError :=
  AssertionError "additionalRule should be an object".

Definition _loadPlugin (plugin : value) : M unit :=
  assert (typeof plugin =? "function") "plugin should be a function" ;;
  call plugin.

(** [this.registerRule(additionalRule)] on an unchecked argument. Line 162
    calls [rule.getOptionName()]: [null], an array and a plain object, whose
    properties are data, have no such method, and the call is a
    TypeError. *)
Definition registerRule_value (rule : value) : M unit :=
  match rule with
  | VRule r => registerRule r
  | _ => throw TypeError
  end.

Definition _loadAdditionalRule (additionalRule : value) : M unit :=
  assert (typeof additionalRule =? "object")
         "additionalRule should be an object" ;;
  registerRule_value additionalRule.

(** ** [_processConfig] (lines 79-132) *)

(** The one-character string holding a double quote. *)
Definition doubleQuote : string :=
  String (Ascii.ascii_of_nat 34) EmptyString.

Definition InvalidPluginsType : JsError :=
  AssertionError "plugins option requires array value".
Definition InvalidPresetType : JsError :=
  AssertionError "preset option requires string value".
Definition PresetNotFound (presetName : string) : JsError :=
  AssertionError ("preset " ++ doubleQuote ++ presetName ++ doubleQuote
                  ++ " was not found").
Definition InvalidFileExtensionsType : JsError :=
  AssertionError "fileExtensions option requires string or array value".
Definition InvalidExcludeFilesType : JsError :=
  AssertionError "excludeFiles option requires array value".
Definition InvalidAdditionalRulesType : JsError :=
  AssertionError "additionalRules option requires array value".

(** Load plugins, lines 82-86. *)
Definition loadPlugins (config : object) : M unit :=
  let plugins := Get config "plugins" in
  if ToBoolean plugins then
    assert (isArray plugins) "plugins option requires array value" ;;
    Array_forEach plugins _loadPlugin
  else ret tt.

(** [this.process(presetData)], line 94. Neither the constructor nor
    [Configuration.prototype] (nor [NodeConfiguration]) defines a member
    [process] -- the processor is [_processConfig] -- so the callee is
    [undefined] and the call throws. *)
Definition this_process (presetData : property object) : M object :=
  throw TypeError.

(** The callback of lines 95-99 and of lines 125-129:
    [if (!BUILTIN_OPTIONS[key]) ruleSettings[key] = source[key]]. *)
Definition copyOption (source ruleSettings : object) (key : string) : object :=
  if negb (BUILTIN_OPTIONS key)
  then assign ruleSettings key (Get source key)
  else ruleSettings.

(** [Object.keys(source).forEach(copyOption)]. *)
Definition copyOptions (source ruleSettings : object) : object :=
  fold_left (copyOption source) (keys source) ruleSettings.

(** Apply presets, lines 88-100. The [match] on the value is the
    [typeof presetName === 'string'] assertion. [this._presets[presetName]]
    is a read on a plain object: a name that is not registered still finds
    the member of that name that every object inherits, which is truthy and
    passes the assertion of line 93. *)
Definition applyPreset (config ruleSettings : object) : M object :=
  let presetName := Get config "preset" in
  if ToBoolean presetName then
    match presetName with
    | VString presetName =>
        presetData <- read (fun c => readProperty (_presets c) presetName) ;;
        match presetData with
        | NoProperty => throw (PresetNotFound presetName)
        | _ =>
            presetResult <- this_process presetData ;;
            ret (copyOptions presetResult ruleSettings)
        end
    | _ => throw InvalidPresetType
    end
  else ret ruleSettings.

(** [[].concat(v)]: an array is spread, anything else becomes the single
    element. *)
Definition concat_into_empty (v : value) : list value :=
  match v with
  | VArray l => l
  | _ => [v]
  end.

(** File extensions, lines 102-109. *)
Definition setFileExtensions (config : object) : M unit :=
  let fileExtensions := Get config "fileExtensions" in
  if ToBoolean fileExtensions then
    assert ((typeof fileExtensions =? "string") || isArray fileExtensions)
           "fileExtensions option requires string or array value" ;;
    modify (set_fileExtensions (concat_into_empty fileExtensions))
  else ret tt.

(** File excludes, lines 111-115. The [match] is the [Array.isArray]
    assertion. *)
Definition setExcludedFiles (config : object) : M unit :=
  let excludeFiles := Get config "excludeFiles" in
  if ToBoolean excludeFiles then
    match excludeFiles with
    | VArray l => modify (set_excludedFiles l)
    | _ => throw InvalidExcludeFilesType
    end
  else ret tt.

(** Additional rules, lines 117-122. The receiver of [forEach] is
    [config.additionalRules.plugins]. *)
Definition loadAdditionalRules (config : object) : M unit :=
  let additionalRules := Get config "additionalRules" in
  if ToBoolean additionalRules then
    assert (isArray additionalRules)
           "additionalRules option requires array value" ;;
    receiver <- get_plugins additionalRules ;;
    Array_forEach receiver _loadAdditionalRule
  else ret tt.

Definition _processConfig (config : object) : M object :=
  let ruleSettings := [] in
  loadPlugins config ;;
  ruleSettings <- applyPreset config ruleSettings ;;
  setFileExtensions config ;;
  setExcludedFiles config ;;
  loadAdditionalRules config ;;
  (* Apply config options *)
  ret (copyOptions config ruleSettings).

(** ** [load] and the accessors (lines 30-71) *)

(** The callback of lines 33-40, with [unsupportedRules] threaded through.
    [optionName] is a key of the rule settings, from which line 126 has
    dropped every name inherited from [Object.prototype], so what
    [this._rules[optionName]] finds is an own property or nothing. *)
Definition configureOption (ruleSettings : object)
    (unsupportedRules : list string) (optionName : string)
  : M (list string) :=
  rule <- read (fun c => lookup (_rules c) optionName) ;;
  match rule with
  | Some rule =>
      configure rule (Get ruleSettings optionName) ;;
      ret unsupportedRules
  | None => ret (unsupportedRules ++ [optionName])%list
  end.

Fixpoint foldM {A B} (f : B -> A -> M B) (l : list A) (b : B) : M B :=
  match l with
  | [] => ret b
  | x :: l' => b' <- f b x ;; foldM f l' b'
  end.

(** [unsupportedRules.join(', ')]. *)
Definition join (separator : string) (l : list string) : string :=
  String.concat separator l.

Definition UnsupportedRules (names : list string) : JsError :=
  Error ("Unsupported rules: " ++ join ", " names).

(** [load(config)]. The value assigned to [_configuredRules] is what
    [Array.prototype.forEach] returns, i.e. [undefined]. *)
Definition load (config : object) : M unit :=
  ruleSettings <- _processConfig config ;;
  unsupportedRules <-
    foldM (configureOption ruleSettings) (keys ruleSettings) [] ;;
  modify (set_configuredRules None) ;;
  if (0 <? Datatypes.length unsupportedRules)%nat
  then throw (UnsupportedRules unsupportedRules)
  else ret tt.

Definition getConfiguredRules (s : State) : option (list Rule) :=
  _configuredRules (this s).

Definition getExcludedFiles (s : State) : list value :=
  _excludedFiles (this s).

Definition getFileExtensions (s : State) : list value :=
  _fileExtensions (this s).

(** ** The built-in catalogues (lines 178-309) *)

(** The rule modules [registerDefaultRules] requires, in the order of lines
    179-282. *)
Definition defaultRuleModules : list string :=
  ["./../rules/require-curly-braces";
   "./../rules/require-multiple-var-decl";
   "./../rules/disallow-multiple-var-decl";
   "./../rules/disallow-empty-blocks";
   "./../rules/require-space-after-keywords";
   "./../rules/disallow-space-after-keywords";
   "./../rules/require-parentheses-around-iife";
   "./../rules/require-left-sticked-operators";
   "./../rules/disallow-left-sticked-operators";
   "./../rules/require-right-sticked-operators";
   "./../rules/disallow-right-sticked-operators";
   "./../rules/validate-jsdoc";
   "./../rules/require-operator-before-line-break";
   "./../rules/disallow-implicit-type-conversion";
   "./../rules/require-camelcase-or-uppercase-identifiers";
   "./../rules/disallow-keywords";
   "./../rules/disallow-multiple-line-breaks";
   "./../rules/disallow-multiple-line-strings";
   "./../rules/validate-line-breaks";
   "./../rules/validate-quote-marks";
   "./../rules/validate-indentation";
   "./../rules/disallow-trailing-whitespace";
   "./../rules/disallow-mixed-spaces-and-tabs";
   "./../rules/require-keywords-on-new-line";
   "./../rules/disallow-keywords-on-new-line";
   "./../rules/require-line-feed-at-file-end";
   "./../rules/maximum-line-length";
   "./../rules/require-yoda-conditions";
   "./../rules/disallow-yoda-conditions";
   "./../rules/require-spaces-inside-object-brackets";
   "./../rules/require-spaces-inside-array-brackets";
   "./../rules/require-spaces-inside-parentheses";
   "./../rules/disallow-spaces-inside-object-brackets";
   "./../rules/disallow-spaces-inside-array-brackets";
   "./../rules/disallow-spaces-inside-parentheses";
   "./../rules/require-blocks-on-newline";
   "./../rules/require-space-after-object-keys";
   "./../rules/require-space-before-object-values";
   "./../rules/disallow-space-after-object-keys";
   "./../rules/disallow-space-before-object-values";
   "./../rules/disallow-quoted-keys-in-objects";
   "./../rules/disallow-dangling-underscores";
   "./../rules/require-aligned-object-values";
   "./../rules/disallow-padding-newlines-in-blocks";
   "./../rules/require-padding-newlines-in-blocks";
   "./../rules/require-newline-before-block-statements";
   "./../rules/disallow-newline-before-block-statements";
   "./../rules/disallow-trailing-comma";
   "./../rules/require-trailing-comma";
   "./../rules/disallow-comma-before-line-break";
   "./../rules/require-comma-before-line-break";
   "./../rules/disallow-space-before-block-statements";
   "./../rules/require-space-before-block-statements";
   "./../rules/disallow-space-before-postfix-unary-operators";
   "./../rules/require-space-before-postfix-unary-operators";
   "./../rules/disallow-space-after-prefix-unary-operators";
   "./../rules/require-space-after-prefix-unary-operators";
   "./../rules/disallow-space-before-binary-operators";
   "./../rules/require-space-before-binary-operators";
   "./../rules/disallow-space-after-binary-operators";
   "./../rules/require-space-after-binary-operators";
   "./../rules/require-spaces-in-conditional-expression";
   "./../rules/disallow-spaces-in-conditional-expression";
   "./../rules/require-spaces-in-function";
   "./../rules/disallow-spaces-in-function";
   "./../rules/require-spaces-in-function-expression";
   "./../rules/disallow-spaces-in-function-expression";
   "./../rules/require-spaces-in-anonymous-function-expression";
   "./../rules/disallow-spaces-in-anonymous-function-expression";
   "./../rules/require-spaces-in-named-function-expression";
   "./../rules/disallow-spaces-in-named-function-expression";
   "./../rules/require-spaces-in-function-declaration";
   "./../rules/disallow-spaces-in-function-declaration";
   "./../rules/validate-parameter-separator";
   "./../rules/require-capitalized-constructors";
   "./../rules/safe-context-keyword";
   "./../rules/require-dot-notation";
   "./../rules/require-space-after-line-comment";
   "./../rules/disallow-space-after-line-comment";
   "./../rules/require-anonymous-functions";
   "./../rules/disallow-anonymous-functions";
   "./../rules/require-function-declarations";
   "./../rules/disallow-function-declarations"].

(** [registerDefaultRules()]: one
    [this.registerRule(new (require(module))())] per module. What
    [new (require(module))()] builds is the parameter [newRule], the rule
    modules not being among the sources. *)
Definition registerDefaultRules (newRule : string -> Rule) : M unit :=
  forEach defaultRuleModules (fun module => registerRule (newRule module)).

(** [registerDefaultPresets()], lines 288-309. The contents of the preset
    files are the parameter [requireJson]. *)
Definition registerDefaultPresets (requireJson : string -> object) : M unit :=
  registerPreset "airbnb" (requireJson "../../presets/airbnb.json") ;;
  registerPreset "crockford" (requireJson "../../presets/crockford.json") ;;
  registerPreset "google" (requireJson "../../presets/google.json") ;;
  registerPreset "jquery" (requireJson "../../presets/jquery.json") ;;
  registerPreset "mdcs" (requireJson "../../presets/mdcs.json") ;;
  registerPreset "wikimedia" (requireJson "../../presets/wikimedia.json") ;;
  registerPreset "yandex" (requireJson "../../presets/yandex.json").

Definition defaultPresetNames : list string :=
  ["airbnb"; "crockford"; "google"; "jquery"; "mdcs"; "wikimedia"; "yandex"].

(** ** The processor with its loaders dispatched on [this] *)

(** [_processConfig] and [load] call [this._loadPlugin] and
    [this._loadAdditionalRule], which a subclass overrides. These are the
    same functions with the two loaders as parameters. *)
Definition loadPluginsWith (loadPlugin : value -> M unit) (config : object)
  : M unit :=
  let plugins := Get config "plugins" in
  if ToBoolean plugins then
    assert (isArray plugins) "plugins option requires array value" ;;
    Array_forEach plugins loadPlugin
  else ret tt.

Definition loadAdditionalRulesWith (loadAdditionalRule : value -> M unit)
    (config : object) : M unit :=
  let additionalRules := Get config "additionalRules" in
  if ToBoolean additionalRules then
    assert (isArray additionalRules)
           "additionalRules option requires array value" ;;
    receiver <- get_plugins additionalRules ;;
    Array_forEach receiver loadAdditionalRule
  else ret tt.

Definition processConfigWith (loadPlugin loadAdditionalRule : value -> M unit)
    (config : object) : M object :=
  let ruleSettings := [] in
  loadPluginsWith loadPlugin config ;;
  ruleSettings <- applyPreset config ruleSettings ;;
  setFileExtensions config ;;
  setExcludedFiles config ;;
  loadAdditionalRulesWith loadAdditionalRule config ;;
  ret (copyOptions config ruleSettings).

Definition loadWith (loadPlugin loadAdditionalRule : value -> M unit)
    (config : object) : M unit :=
  ruleSettings <- processConfigWith loadPlugin loadAdditionalRule config ;;
  unsupportedRules <-
    foldM (configureOption ruleSettings) (keys ruleSettings) [] ;;
  modify (set_configuredRules None) ;;
  if (0 <? Datatypes.length unsupportedRules)%nat
  then throw (UnsupportedRules unsupportedRules)
  else ret tt.

(** ** [NodeConfiguration] (node-configuration.js) *)

(** What the nodejs engine takes from its host: [require(id)], which
    returns the module's exports or throws; [new Rule()] on such exports,
    which returns the instance or throws; [glob.sync], [path.resolve] and
    [process.cwd()]. *)
Record NodeHost : Type := mkNodeHost {
  require : string -> completion value;
  construct : value -> completion value;
  glob_sync : string -> list string;
  path_resolve : string -> string -> string;
  process_cwd : string
}.

(** A host call inside a computation: it does not touch the engine. *)
Definition host_call {A} (c : completion A) : M A := fun s => (c, s).

Module NodeConfiguration.

(** Lines 25-30. *)
Definition _loadPlugin (host : NodeHost) (plugin : value) : M unit :=
  plugin <- match plugin with
            | VString id => host_call (require host id)
            | _ => ret plugin
            end ;;
  _loadPlugin plugin.

(** The callback of lines 40-43: [var Rule = require(path);] then the base
    loader on [new Rule()]. *)
Definition loadRuleModule (host : NodeHost) (path : string) : M unit :=
  Rule <- host_call (require host path) ;;
  instance <- host_call (construct host Rule) ;;
  _loadAdditionalRule instance.

(** Lines 38-47. *)
Definition _loadAdditionalRule (host : NodeHost) (additionalRule : value)
  : M unit :=
  match additionalRule with
  | VString pattern =>
      forEach
        (glob_sync host (path_resolve host (process_cwd host) pattern))
        (loadRuleModule host)
  | _ => _loadAdditionalRule additionalRule
  end.

(** [load] as inherited, with the loaders of this class. *)
Definition load (host : NodeHost) (config : object) : M unit :=
  loadWith (_loadPlugin host) (_loadAdditionalRule host) config.

End NodeConfiguration.

(** A host for the examples. The module ["./my-plugin"] is a plugin
    registering [custom-rule]; ["rules/*.js"] matches two rule modules and
    ["broken/*.js"] one rule module followed by a file that cannot be
    loaded. *)
Definition exampleHost : NodeHost :=
  {| require := fun id =>
       if id =? "./my-plugin"
       then Normal (VFunction [CallRegisterRule (mkRule 5 "custom-rule")])
       else if id =? "/project/rules/a.js"
       then Normal (VObject [("class", DString "A")])
       else if id =? "/project/rules/b.js"
       then Normal (VObject [("class", DString "B")])
       else Throw (Error "Cannot find module");
     construct := fun exports =>
       match exports with
       | VObject [(_, DString "A")] => Normal (VRule (mkRule 6 "ruleA"))
       | VObject [(_, DString "B")] => Normal (VRule (mkRule 7 "ruleB"))
       | _ => Throw TypeError
       end;
     glob_sync := fun pattern =>
       if pattern =? "/project/rules/*.js"
       then ["/project/rules/a.js"; "/project/rules/b.js"]
       else if pattern =? "/project/broken/*.js"
       then ["/project/rules/a.js"; "/project/broken/x.js";
             "/project/rules/b.js"]
       else [];
     path_resolve := fun cwd p => cwd ++ "/" ++ p;
     process_cwd := "/project" |}.

(** ** Vocabulary of the statements *)

(** The rule registered under [optionName], if any. *)
Definition registered (s : State) (optionName : string) : option Rule :=
  lookup (_rules (this s)) optionName.

(** The [configure] calls the loop of [load] makes for the keys [l]. *)
Definition configuredBy (s : State) (ruleSettings : object) (l : list string)
  : list (Rule * value) :=
  flat_map (fun optionName =>
              match registered s optionName with
              | Some rule => [(rule, Get ruleSettings optionName)]
              | None => []
              end) l.

(** The keys of [l] that match no registered rule, in order. *)
Definition unsupportedIn (s : State) (l : list string) : list string :=
  filter (fun optionName =>
            match registered s optionName with
            | Some _ => false
            | None => true
            end) l.

Definition add_calls (calls : list (Rule * value)) (s : State) : State :=
  {| this := this s; configureCalls := (configureCalls s ++ calls)%list |}.

(** What [load] does once the processor has produced [ruleSettings]. *)
Definition finishLoad (ruleSettings : object) (s1 : State)
  : completion unit * State :=
  (match unsupportedIn s1 (keys ruleSettings) with
   | [] => Normal tt
   | names => Throw (UnsupportedRules names)
   end,
   update_this (set_configuredRules None)
     (add_calls (configuredBy s1 ruleSettings (keys ruleSettings)) s1)).

(** The writes [ws] applied to a registry one after the other. *)
Definition assignAll {A} (ws : list (string * A)) (o : list (string * A))
  : list (string * A) :=
  fold_left (fun o w => assign o (fst w) (snd w)) ws o.

(** What a lookup of [k] answers after one more write [w], when it answered
    [acc] before. *)
Definition written {A} (k : string) (acc : option A) (w : string * A)
  : option A :=
  if fst w =? k then Some (snd w) else acc.

(** The engine after the rule registrations [rw] and the preset
    registrations [pw]. *)
Definition writeAll (rw : list (string * Rule)) (pw : list (string * object))
    (s : State) : State :=
  update_this
    (fun c => set_rules (assignAll rw (_rules c))
                (set_presets (assignAll pw (_presets c)) c)) s.

(** A computation that only registers rules and presets, and does so
    without looking at the engine. *)
Definition Oblivious (m : M unit) : Prop :=
  exists r rw pw, forall s, m s = (r, writeAll rw pw s).

(** Two engines whose registries answer every lookup alike. *)
Definition sameRegistries (s t : State) : Prop :=
  forall k,
    lookup (_rules (this s)) k = lookup (_rules (this t)) k
    /\ lookup (_presets (this s)) k = lookup (_presets (this t)) k.

(** A computation that leaves the registries alone and, run on two engines
    with the same registries, completes alike, makes the same [configure]
    calls, and either leaves [_configuredRules] alone or overwrites it with
    [undefined] on both. *)
Definition Stable {A} (m : M A) : Prop :=
  forall s t, sameRegistries s t ->
  exists r calls s' t',
    m s = (r, s') /\ m t = (r, t')
    /\ _rules (this s') = _rules (this s)
    /\ _presets (this s') = _presets (this s)
    /\ _rules (this t') = _rules (this t)
    /\ _presets (this t') = _presets (this t)
    /\ configureCalls s' = (configureCalls s ++ calls)%list
    /\ configureCalls t' = (configureCalls t ++ calls)%list
    /\ ((_configuredRules (this s') = _configuredRules (this s)
         /\ _configuredRules (this t') = _configuredRules (this t))
        \/ (_configuredRules (this s') = None
            /\ _configuredRules (this t') = None)).

(** * Properties *)

(** ** Dictionaries *)

Section DictionaryFacts.
Context {A : Type}.
Implicit Types (o : list (string * A)) (k : string) (v : A).

Lemma lookup_assign_same o k v : lookup (assign o k v) k = Some v.
Proof.
  induction o as [|[k' w] o IH]; simpl.
  - now rewrite String.eqb_refl.
  - destruct (k' =? k) eqn:E; simpl; rewrite E; auto.
Qed.

Lemma lookup_assign_other o k k' v :
  k <> k' -> lookup (assign o k v) k' = lookup o k'.
Proof.
  intros Hne. induction o as [|[k0 w] o IH]; simpl.
  - destruct (k =? k') eqn:E; auto.
    apply String.eqb_eq in E. contradiction.
  - destruct (k0 =? k) eqn:E; simpl.
    + apply String.eqb_eq in E. subst k0.
      destruct (k =? k') eqn:E'; auto.
      apply String.eqb_eq in E'. contradiction.
    + now rewrite IH.
Qed.

Lemma lookup_assign o k k' v :
  lookup (assign o k v) k' = if k =? k' then Some v else lookup o k'.
Proof.
  destruct (k =? k') eqn:E.
  - apply String.eqb_eq in E. subst. apply lookup_assign_same.
  - apply String.eqb_neq in E. now apply lookup_assign_other.
Qed.

Lemma lookup_None_iff o k : lookup o k = None <-> ~ In k (keys o).
Proof.
  unfold keys. induction o as [|[k' w] o IH]; simpl.
  - tauto.
  - destruct (k' =? k) eqn:E.
    + apply String.eqb_eq in E. subst k'.
      split; [discriminate | intros H; exfalso; apply H; now left].
    + apply String.eqb_neq in E. rewrite IH. tauto.
Qed.

Lemma In_keys_assign o k k' v :
  In k' (keys (assign o k v)) <-> k' = k \/ In k' (keys o).
Proof.
  unfold keys. induction o as [|[k0 w] o IH]; simpl.
  - intuition congruence.
  - destruct (k0 =? k) eqn:E; simpl.
    + apply String.eqb_eq in E. subst. intuition congruence.
    + rewrite IH. tauto.
Qed.

(** Assigning to a key that is not there yet appends it. *)
Lemma assign_fresh o k v :
  ~ In k (keys o) -> assign o k v = (o ++ [(k, v)])%list.
Proof.
  unfold keys. induction o as [|[k0 w] o IH]; simpl; intros Hn; auto.
  destruct (k0 =? k) eqn:E.
  - apply String.eqb_eq in E. tauto.
  - rewrite IH; tauto.
Qed.

Lemma lookup_remove_other o k k' :
  k <> k' -> lookup (remove o k) k' = lookup o k'.
Proof.
  intros Hne. induction o as [|[k0 w] o IH]; simpl; auto.
  destruct (k0 =? k) eqn:E; simpl.
  - apply String.eqb_eq in E. subst k0.
    apply String.eqb_neq in Hne. now rewrite Hne.
  - now rewrite IH.
Qed.

Lemma lookup_remove_same o k : lookup (remove o k) k = None.
Proof.
  induction o as [|[k0 w] o IH]; simpl; auto.
  destruct (k0 =? k) eqn:E; simpl; auto. now rewrite E.
Qed.
End DictionaryFacts.

Lemma BUILTIN_OPTIONS_true_iff k :
  BUILTIN_OPTIONS k = true <->
  In k reservedKeys \/ inheritedFromObjectPrototype k = true.
Proof.
  unfold BUILTIN_OPTIONS, reservedKeys. simpl.
  rewrite !orb_true_iff, !String.eqb_eq. intuition congruence.
Qed.

Lemma BUILTIN_OPTIONS_reserved k :
  In k reservedKeys -> BUILTIN_OPTIONS k = true.
Proof. intros H. apply BUILTIN_OPTIONS_true_iff. now left. Qed.

Lemma BUILTIN_OPTIONS_false k :
  BUILTIN_OPTIONS k = false ->
  ~ In k reservedKeys /\ inheritedFromObjectPrototype k = false.
Proof.
  intros H. split.
  - intros Hin. apply BUILTIN_OPTIONS_reserved in Hin. congruence.
  - destruct (inheritedFromObjectPrototype k) eqn:E; auto.
    assert (BUILTIN_OPTIONS k = true)
      by (apply BUILTIN_OPTIONS_true_iff; now right).
    congruence.
Qed.

Lemma BUILTIN_OPTIONS_false_iff k :
  BUILTIN_OPTIONS k = false <->
  ~ In k reservedKeys /\ inheritedFromObjectPrototype k = false.
Proof.
  split; [apply BUILTIN_OPTIONS_false|]. intros [Hres Hinh].
  destruct (BUILTIN_OPTIONS k) eqn:E; auto.
  apply BUILTIN_OPTIONS_true_iff in E. destruct E; [contradiction|congruence].
Qed.

Lemma readProperty_own {A} (o : list (string * A)) k a :
  lookup o k = Some a -> readProperty o k = OwnProperty a.
Proof. intros H. unfold readProperty. now rewrite H. Qed.

(** ** Running [load] after a successful [_processConfig] *)

Lemma add_calls_nil s : add_calls [] s = s.
Proof. destruct s. unfold add_calls. simpl. now rewrite app_nil_r. Qed.

Lemma add_calls_app c1 c2 s :
  add_calls c2 (add_calls c1 s) = add_calls (c1 ++ c2) s.
Proof. unfold add_calls. simpl. now rewrite app_assoc. Qed.

Lemma foldM_configureOption ruleSettings l : forall acc s,
  foldM (configureOption ruleSettings) l acc s =
  (Normal (acc ++ unsupportedIn s l)%list,
   add_calls (configuredBy s ruleSettings l) s).
Proof.
  induction l as [|k l IH]; intros acc s; simpl.
  - now rewrite app_nil_r, add_calls_nil.
  - unfold bind at 1. unfold configureOption at 1.
    unfold bind, read, ret, configure, registered. simpl.
    destruct (lookup (_rules (this s)) k) as [rule|] eqn:E; simpl.
    + rewrite IH. unfold unsupportedIn, configuredBy, registered, add_calls.
      simpl. now rewrite <- app_assoc.
    + rewrite IH. now rewrite <- app_assoc.
  Qed.

Lemma load_after_processConfig config s ruleSettings s1 :
  _processConfig config s = (Normal ruleSettings, s1) ->
  load config s = finishLoad ruleSettings s1.
Proof.
  intros H. unfold load, bind at 1. rewrite H.
  unfold bind at 1. rewrite foldM_configureOption. simpl.
  unfold bind, modify, finishLoad. simpl.
  destruct (unsupportedIn s1 (keys ruleSettings)); reflexivity.
Qed.

Lemma load_processConfig_throws config s e s1 :
  _processConfig config s = (Throw e, s1) ->
  load config s = (Throw e, s1).
Proof. intros H. unfold load, bind at 1. now rewrite H. Qed.

Lemma load_cases config s :
  load config s =
  match _processConfig config s with
  | (Normal ruleSettings, s1) => finishLoad ruleSettings s1
  | (Throw e, s1) => (Throw e, s1)
  end.
Proof.
  destruct (_processConfig config s) as [[rs|e] s1] eqn:E.
  - now apply load_after_processConfig.
  - now apply load_processConfig_throws.
Qed.

(** [_processConfig] step by step. *)
Lemma processConfig_steps config s :
  _processConfig config s =
  match loadPlugins config s with
  | (Throw e, s1) => (Throw e, s1)
  | (Normal _, s1) =>
    match applyPreset config [] s1 with
    | (Throw e, s2) => (Throw e, s2)
    | (Normal ruleSettings, s2) =>
      match setFileExtensions config s2 with
      | (Throw e, s3) => (Throw e, s3)
      | (Normal _, s3) =>
        match setExcludedFiles config s3 with
        | (Throw e, s4) => (Throw e, s4)
        | (Normal _, s4) =>
          match loadAdditionalRules config s4 with
          | (Throw e, s5) => (Throw e, s5)
          | (Normal _, s5) => (Normal (copyOptions config ruleSettings), s5)
          end
        end
      end
    end
  end.
Proof.
  unfold _processConfig, bind, ret.
  destruct (loadPlugins config s) as [[[]|e] s1]; reflexivity.
Qed.

(** ** Plugins only write to the registries *)

Lemma writeAll_writeAll rw1 pw1 rw2 pw2 s :
  writeAll rw2 pw2 (writeAll rw1 pw1 s) = writeAll (rw1 ++ rw2) (pw1 ++ pw2) s.
Proof.
  unfold writeAll, update_this, set_rules, set_presets, assignAll. simpl.
  now rewrite !fold_left_app.
Qed.

Lemma writeAll_nil s : writeAll [] [] s = s.
Proof. destruct s as [[? ? ? ? ?] ?]. reflexivity. Qed.

Lemma Oblivious_ret : Oblivious (ret tt).
Proof. exists (Normal tt), [], []. intros s. now rewrite writeAll_nil. Qed.

Lemma Oblivious_throw e : Oblivious (throw e).
Proof. exists (Throw e), [], []. intros s. now rewrite writeAll_nil. Qed.

Lemma Oblivious_bind (m k : M unit) :
  Oblivious m -> Oblivious k -> Oblivious (m ;; k).
Proof.
  intros (r1 & rw1 & pw1 & H1) (r2 & rw2 & pw2 & H2).
  destruct r1 as [[]|e].
  - exists r2, (rw1 ++ rw2)%list, (pw1 ++ pw2)%list. intros s.
    unfold bind. now rewrite H1, H2, writeAll_writeAll.
  - exists (Throw e), rw1, pw1. intros s. unfold bind. now rewrite H1.
Qed.

Lemma Oblivious_assert c message : Oblivious (assert c message).
Proof. destruct c; [apply Oblivious_ret | apply Oblivious_throw]. Qed.

Lemma Oblivious_registerRule rule : Oblivious (registerRule rule).
Proof.
  exists (Normal tt), [(getOptionName rule, rule)], []. intros s.
  destruct s as [[? ? ? ? ?] ?]. reflexivity.
Qed.

Lemma Oblivious_registerPreset name cfg : Oblivious (registerPreset name cfg).
Proof.
  exists (Normal tt), [], [(name, cfg)]. intros s.
  destruct s as [[? ? ? ? ?] ?]. reflexivity.
Qed.

Lemma Oblivious_forEach {A} (f : A -> M unit) l :
  (forall x, Oblivious (f x)) -> Oblivious (forEach l f).
Proof.
  intros Hf. induction l as [|x l IH]; simpl.
  - apply Oblivious_ret.
  - apply Oblivious_bind; auto.
Qed.

Lemma Oblivious_exec st : Oblivious (exec st).
Proof.
  destruct st; simpl.
  - apply Oblivious_registerRule.
  - apply Oblivious_registerPreset.
  - apply Oblivious_throw.
Qed.

Lemma Oblivious_loadPlugin plugin : Oblivious (_loadPlugin plugin).
Proof.
  unfold _loadPlugin. apply Oblivious_bind.
  - apply Oblivious_assert.
  - destruct plugin; simpl; try apply Oblivious_throw.
    apply Oblivious_forEach, Oblivious_exec.
Qed.

Lemma Oblivious_loadPlugins config : Oblivious (loadPlugins config).
Proof.
  unfold loadPlugins. destruct (ToBoolean (Get config "plugins")).
  - apply Oblivious_bind; [apply Oblivious_assert|].
    destruct (Get config "plugins"); simpl; try apply Oblivious_throw.
    apply Oblivious_forEach, Oblivious_loadPlugin.
  - apply Oblivious_ret.
Qed.

Lemma loadPlugins_configureCalls config s r s1 :
  loadPlugins config s = (r, s1) -> configureCalls s1 = configureCalls s.
Proof.
  destruct (Oblivious_loadPlugins config) as (r' & rw & pw & H).
  rewrite H. intros E. now injection E as _ <-.
Qed.

(** ** C1: what [getConfiguredRules] returns after [load] *)

(** C1 (violated by the code). Whenever [load(config)] returns successfully,
    [getConfiguredRules()] afterwards returns [undefined] -- not the list of
    the rules that were configured: line 33 stores the result of [forEach]
    in [_configuredRules]. *)
Theorem getConfiguredRules_after_load config s s' :
  load config s = (Normal tt, s') ->
  getConfiguredRules s' = None.
Proof.
  intros H.
  destruct (_processConfig config s) as [[rs|e] s1] eqn:E.
  - rewrite (load_after_processConfig _ _ _ _ E) in H.
    unfold finishLoad in H. injection H as _ <-. reflexivity.
  - rewrite (load_processConfig_throws _ _ _ _ E) in H. discriminate.
Qed.

(** An engine with one registered rule loads [{disallowEmptyBlocks: true}]:
    the rule is configured with [true], yet the accessor returns
    [undefined]. *)
Lemma getConfiguredRules_after_load_witness :
  let rule := mkRule 1 "disallowEmptyBlocks" in
  let s := snd (registerRule rule freshState) in
  let s' := snd (load [("disallowEmptyBlocks", VBool true)] s) in
  configureCalls s' = [(rule, VBool true)]
  /\ getConfiguredRules s' = None
  /\ getConfiguredRules s' <> Some [rule].
Proof.
  cbv zeta. split; [reflexivity|].
  assert (H : getConfiguredRules
                (snd (load [("disallowEmptyBlocks", VBool true)]
                        (snd (registerRule (mkRule 1 "disallowEmptyBlocks")
                                freshState)))) = None).
  { apply (getConfiguredRules_after_load
             [("disallowEmptyBlocks", VBool true)]
             (snd (registerRule (mkRule 1 "disallowEmptyBlocks") freshState))).
    reflexivity. }
  split; [exact H | rewrite H; discriminate].
Defined.

(** ** C2: presets *)

Lemma applyPreset_registered config ruleSettings s presetName presetData :
  Get config "preset" = VString presetName ->
  presetName <> "" ->
  lookup (_presets (this s)) presetName = Some presetData ->
  applyPreset config ruleSettings s = (Throw TypeError, s).
Proof.
  intros Hget Hne Hfound. unfold applyPreset. rewrite Hget. simpl.
  apply String.eqb_neq in Hne. rewrite Hne. simpl.
  unfold bind, read. rewrite (readProperty_own _ _ _ Hfound). reflexivity.
Qed.

(** C2 (violated by the code). Whenever the configuration names a registered
    preset, [load] aborts with a TypeError at [this.process(presetData)]
    (line 94): the preset is never expanded, the outer keys are never
    copied, and no rule is configured, with either value. *)
Theorem load_with_registered_preset config s s1 presetName presetData :
  loadPlugins config s = (Normal tt, s1) ->
  Get config "preset" = VString presetName ->
  presetName <> "" ->
  lookup (_presets (this s1)) presetName = Some presetData ->
  load config s = (Throw TypeError, s1)
  /\ configureCalls (snd (load config s)) = configureCalls s.
Proof.
  intros Hplugins Hget Hne Hfound.
  assert (Hload : load config s = (Throw TypeError, s1)).
  { apply load_processConfig_throws.
    rewrite processConfig_steps, Hplugins.
    now rewrite (applyPreset_registered _ _ _ _ _ Hget Hne Hfound). }
  split; [exact Hload|]. rewrite Hload. simpl.
  now apply loadPlugins_configureCalls in Hplugins.
Qed.

(** Scenario 1 of the specification: preset [p] is
    [{"disallow-empty-blocks": true}], the rule is registered, and the
    configuration is [{preset: "p", "disallow-empty-blocks": false}]. *)
Lemma load_with_registered_preset_witness :
  let rule := mkRule 1 "disallow-empty-blocks" in
  let s0 := snd (registerRule rule freshState) in
  let s := snd (registerPreset "p" [("disallow-empty-blocks", VBool true)] s0) in
  let config := [("preset", VString "p");
                 ("disallow-empty-blocks", VBool false)] in
  load config s = (Throw TypeError, s)
  /\ configureCalls (snd (load config s)) = [].
Proof.
  cbv zeta.
  assert (Hne : "p" <> EmptyString) by discriminate.
  exact (load_with_registered_preset
           [("preset", VString "p"); ("disallow-empty-blocks", VBool false)]
           (snd (registerPreset "p" [("disallow-empty-blocks", VBool true)]
                   (snd (registerRule (mkRule 1 "disallow-empty-blocks")
                           freshState))))
           _ "p" [("disallow-empty-blocks", VBool true)]
           eq_refl eq_refl Hne eq_refl).
Defined.

(** ** C3: additional rules *)

Lemma loadAdditionalRules_array config s l :
  Get config "additionalRules" = VArray l ->
  loadAdditionalRules config s = (Throw TypeError, s).
Proof. intros H. unfold loadAdditionalRules. now rewrite H. Qed.

(** C3 (violated by the code). Whenever [additionalRules] is an array -- empty
    or not -- and the processor reaches that step, the step throws a
    TypeError before any element is handed to [_loadAdditionalRule]: the
    receiver of [forEach] on line 120 is [config.additionalRules.plugins],
    which is [undefined]. [load] aborts in the state it had before the step,
    so none of the rules is registered. *)
Theorem load_with_additionalRules_array config s s1 rs s2 s3 s4 l :
  loadPlugins config s = (Normal tt, s1) ->
  applyPreset config [] s1 = (Normal rs, s2) ->
  setFileExtensions config s2 = (Normal tt, s3) ->
  setExcludedFiles config s3 = (Normal tt, s4) ->
  Get config "additionalRules" = VArray l ->
  loadAdditionalRules config s4 = (Throw TypeError, s4)
  /\ load config s = (Throw TypeError, s4).
Proof.
  intros H1 H2 H3 H4 Hget.
  pose proof (loadAdditionalRules_array config s4 l Hget) as H5.
  split; [exact H5|].
  apply load_processConfig_throws.
  now rewrite processConfig_steps, H1, H2, H3, H4, H5.
Qed.

(** [load({additionalRules: [rule]})] on a fresh engine. *)
Lemma load_with_additionalRules_array_witness :
  let rule := mkRule 1 "custom-rule" in
  let config := [("additionalRules", VArray [VRule rule])] in
  (loadAdditionalRules config freshState = (Throw TypeError, freshState)
   /\ load config freshState = (Throw TypeError, freshState))
  /\ registered freshState "custom-rule" = None.
Proof.
  cbv zeta. split; [|reflexivity].
  apply (load_with_additionalRules_array _ freshState freshState []
           freshState freshState freshState [VRule (mkRule 1 "custom-rule")]);
    reflexivity.
Defined.

(** ** C4: unsupported rules *)







(** ** C6: reserved keys never become rule settings *)

Lemma inherited_not_reserved k :
  inheritedFromObjectPrototype k = true -> ~ In k reservedKeys.
Proof.
  intros H Hin. unfold reservedKeys in Hin. simpl in Hin.
  destruct Hin as [<-|[<-|[<-|[<-|[<-|[]]]]]]; discriminate.
Qed.

Section CopyOptions.
Variable source : object.

Lemma copy_keys_not_builtin ks : forall target,
  (forall k, In k (keys target) -> BUILTIN_OPTIONS k = false) ->
  forall k, In k (keys (fold_left (copyOption source) ks target)) ->
            BUILTIN_OPTIONS k = false.
Proof.
  induction ks as [|x ks IH]; intros target Htarget k; simpl; auto.
  apply IH. intros k'. unfold copyOption.
  destruct (BUILTIN_OPTIONS x) eqn:E; simpl; auto.
  rewrite In_keys_assign. intros [->|H]; auto.
Qed.

Lemma copy_lookup_untouched ks : forall target k,
  ~ In k ks \/ BUILTIN_OPTIONS k = true ->
  lookup (fold_left (copyOption source) ks target) k = lookup target k.
Proof.
  induction ks as [|x ks IH]; intros target k Hk; simpl; auto.
  rewrite IH by (simpl in Hk; tauto).
  unfold copyOption. destruct (BUILTIN_OPTIONS x) eqn:E; simpl; auto.
  apply lookup_assign_other. intros ->. simpl in Hk.
  destruct Hk as [Hk|Hk]; [tauto | congruence].
Qed.

Lemma copy_lookup_copied ks : forall target k,
  In k ks -> BUILTIN_OPTIONS k = false ->
  lookup (fold_left (copyOption source) ks target) k = Some (Get source k).
Proof.
  induction ks as [|x ks IH]; intros target k Hin Hk; simpl in *.
  - contradiction.
  - destruct (in_dec string_dec k ks) as [Hks|Hks].
    + now apply IH.
    + destruct Hin as [->|Hin]; [|contradiction].
      rewrite copy_lookup_untouched by tauto.
      unfold copyOption. rewrite Hk. simpl. apply lookup_assign_same.
Qed.
End CopyOptions.

Lemma copyOptions_keys_not_builtin source target :
  (forall k, In k (keys target) -> BUILTIN_OPTIONS k = false) ->
  forall k, In k (keys (copyOptions source target)) ->
            BUILTIN_OPTIONS k = false.
Proof. apply copy_keys_not_builtin. Qed.

Lemma copyOptions_copied source target k :
  In k (keys source) -> BUILTIN_OPTIONS k = false ->
  lookup (copyOptions source target) k = Some (Get source k).
Proof. apply copy_lookup_copied. Qed.

(** The preset step completes normally only when there is no preset to
    apply: the path through [this.process] always throws. *)
Lemma applyPreset_normal config ruleSettings s ruleSettings' s' :
  applyPreset config ruleSettings s = (Normal ruleSettings', s') ->
  ruleSettings' = ruleSettings /\ s' = s
  /\ ToBoolean (Get config "preset") = false.
Proof.
  unfold applyPreset.
  destruct (ToBoolean (Get config "preset")) eqn:E.
  - destruct (Get config "preset") as [| | | | name | | | |];
      try discriminate.
    unfold bind, read.
    destruct (readProperty (_presets (this s)) name); discriminate.
  - unfold ret. intros H. injection H as <- <-. auto.
Qed.

Lemma processConfig_normal config s ruleSettings s' :
  _processConfig config s = (Normal ruleSettings, s') ->
  ruleSettings = copyOptions config [].
Proof.
  rewrite processConfig_steps.
  destruct (loadPlugins config s) as [[[]|e] s1]; [|discriminate].
  destruct (applyPreset config [] s1) as [[rs|e] s2] eqn:E; [|discriminate].
  apply applyPreset_normal in E. destruct E as (-> & _ & _).
  destruct (setFileExtensions config s2) as [[[]|e] s3]; [|discriminate].
  destruct (setExcludedFiles config s3) as [[[]|e] s4]; [|discriminate].
  destruct (loadAdditionalRules config s4) as [[[]|e] s5]; [|discriminate].
  intros H. now injection H as <- _.
Qed.

(** C6 (violated by the code). The rule settings the processor returns
    never hold a reserved key, and a key of the configuration that is
    neither reserved nor the name of a member of [Object.prototype] is in
    them with the configuration's value. But a key such as [toString] or
    [constructor], which is not reserved, is dropped like a reserved one:
    [BUILTIN_OPTIONS[key]] on lines 96 and 126 finds the inherited member,
    which is truthy. Such a key is not treated as a rule-option name. *)
Theorem processConfig_drops_inherited_names config s ruleSettings s' :
  _processConfig config s = (Normal ruleSettings, s') ->
  (forall k, In k (keys config) ->
             inheritedFromObjectPrototype k = true ->
             ~ In k reservedKeys /\ ~ In k (keys ruleSettings))
  /\ (forall k, In k (keys ruleSettings) ->
                ~ In k reservedKeys
                /\ inheritedFromObjectPrototype k = false)
  /\ (forall k, In k (keys config) ->
                ~ In k reservedKeys ->
                inheritedFromObjectPrototype k = false ->
                In k (keys ruleSettings)
                /\ Get ruleSettings k = Get config k).
Proof.
  intros H. apply processConfig_normal in H. subst ruleSettings.
  assert (Hkeys : forall k, In k (keys (copyOptions config [])) ->
                            BUILTIN_OPTIONS k = false).
  { apply copyOptions_keys_not_builtin. simpl. tauto. }
  split; [|split].
  - intros k Hk Hinh. split; [now apply inherited_not_reserved|].
    intros Hin. apply Hkeys, BUILTIN_OPTIONS_false in Hin.
    destruct Hin as [_ Hin]. congruence.
  - intros k Hk. now apply BUILTIN_OPTIONS_false, Hkeys.
  - intros k Hk Hres Hinh.
    assert (Hb : BUILTIN_OPTIONS k = false)
      by (apply BUILTIN_OPTIONS_false_iff; auto).
    pose proof (copyOptions_copied config [] k Hk Hb) as Hl.
    split.
    + destruct (in_dec string_dec k (keys (copyOptions config [])))
        as [Hin|Hin]; auto.
      apply lookup_None_iff in Hin. congruence.
    + unfold Get at 1. now rewrite Hl.
Qed.

(** [{toString: true, a: 1}] resolves to [{a: 1}]; and on a new engine
    [load({toString: true})] returns instead of reporting [toString] as
    unsupported. *)
Lemma processConfig_drops_inherited_names_witness :
  let config := [("toString", VBool true); ("a", VNumber 1)] in
  (~ In "toString" reservedKeys /\ ~ In "toString" (keys [("a", VNumber 1)]))
  /\ fst (_processConfig config freshState) = Normal [("a", VNumber 1)]
  /\ fst (load [("toString", VBool true)] freshState) = Normal tt.
Proof.
  cbv zeta. split; [|split; reflexivity].
  destruct (processConfig_drops_inherited_names
              [("toString", VBool true); ("a", VNumber 1)] freshState
              [("a", VNumber 1)]
              (snd (_processConfig
                      [("toString", VBool true); ("a", VNumber 1)]
                      freshState)) eq_refl) as (H & _).
  apply (H "toString"); [simpl; tauto | reflexivity].
Defined.

(** ** C7: file extensions *)

Lemma setExcludedFiles_fileExtensions config s r s' :
  setExcludedFiles config s = (r, s') ->
  getFileExtensions s' = getFileExtensions s.
Proof.
  unfold setExcludedFiles.
  destruct (ToBoolean (Get config "excludeFiles"));
    [destruct (Get config "excludeFiles")|];
    unfold throw, ret, modify; intros H; injection H as _ <-; reflexivity.
Qed.

(** The additional-rules step never changes the engine. *)
Lemma loadAdditionalRules_state config s r s' :
  loadAdditionalRules config s = (r, s') -> s' = s.
Proof.
  unfold loadAdditionalRules.
  destruct (ToBoolean (Get config "additionalRules"));
    [destruct (Get config "additionalRules")|];
    simpl; unfold bind, throw, ret; simpl;
    intros H; injection H as _ <-; reflexivity.
Qed.

Lemma load_fileExtensions config s s1 rs s2 s3 :
  loadPlugins config s = (Normal tt, s1) ->
  applyPreset config [] s1 = (Normal rs, s2) ->
  setFileExtensions config s2 = (Normal tt, s3) ->
  getFileExtensions (snd (load config s)) = getFileExtensions s3.
Proof.
  intros H1 H2 H3.
  destruct (_processConfig config s) as [[rs'|e] s5] eqn:E.
  - rewrite (load_after_processConfig _ _ _ _ E). simpl.
    rewrite processConfig_steps, H1, H2, H3 in E.
    destruct (setExcludedFiles config s3) as [[[]|e] s4] eqn:E4;
      [|discriminate].
    destruct (loadAdditionalRules config s4) as [[[]|e] s5'] eqn:E5;
      [|discriminate].
    injection E as _ <-.
    apply loadAdditionalRules_state in E5. subst s5'.
    apply setExcludedFiles_fileExtensions in E4. exact E4.
  - rewrite (load_processConfig_throws _ _ _ _ E). simpl.
    rewrite processConfig_steps, H1, H2, H3 in E.
    destruct (setExcludedFiles config s3) as [[[]|e'] s4] eqn:E4.
    + destruct (loadAdditionalRules config s4) as [[[]|e'] s5'] eqn:E5;
        [discriminate|].
      injection E as _ <-.
      apply loadAdditionalRules_state in E5. subst s5'.
      apply setExcludedFiles_fileExtensions in E4. exact E4.
    + injection E as _ <-.
      apply setExcludedFiles_fileExtensions in E4. exact E4.
Qed.

(** C7, as the code has it. Let the processor reach the file-extensions
    step (the plugin and preset steps have completed) with a truthy
    [fileExtensions] option. A string becomes the one-element list, an array
    is taken as it is, and the result replaces the engine's list, whatever
    [load] does afterwards; any other value aborts [load] with the
    file-extensions type error. In particular
    [load({fileExtensions: ".jsx"})] on a new engine, whose list is
    [['.js']], succeeds and leaves [getFileExtensions()] at [[".jsx"]]. *)
Theorem fileExtensions_replace_the_default config s s1 rs s2 :
  loadPlugins config s = (Normal tt, s1) ->
  applyPreset config [] s1 = (Normal rs, s2) ->
  ToBoolean (Get config "fileExtensions") = true ->
  (forall ext, Get config "fileExtensions" = VString ext ->
               getFileExtensions (snd (load config s)) = [VString ext])
  /\ (forall l, Get config "fileExtensions" = VArray l ->
                getFileExtensions (snd (load config s)) = l)
  /\ ((forall ext, Get config "fileExtensions" <> VString ext) ->
      (forall l, Get config "fileExtensions" <> VArray l) ->
      load config s = (Throw InvalidFileExtensionsType, s2))
  /\ (getFileExtensions freshState = [VString ".js"]
      /\ fst (load [("fileExtensions", VString ".jsx")] freshState)
         = Normal tt
      /\ getFileExtensions
           (snd (load [("fileExtensions", VString ".jsx")] freshState))
         = [VString ".jsx"]).
Proof.
  intros H1 H2 Htruthy. repeat split.
  - intros ext Hext.
    rewrite (load_fileExtensions config s s1 rs s2
               (update_this (set_fileExtensions [VString ext]) s2) H1 H2).
    + reflexivity.
    + unfold setFileExtensions. rewrite Htruthy, Hext. reflexivity.
  - intros l Hl.
    rewrite (load_fileExtensions config s s1 rs s2
               (update_this (set_fileExtensions l) s2) H1 H2).
    + reflexivity.
    + unfold setFileExtensions. rewrite Htruthy, Hl. reflexivity.
  - intros Hstr Harr. apply load_processConfig_throws.
    rewrite processConfig_steps, H1, H2.
    unfold setFileExtensions. rewrite Htruthy.
    destruct (Get config "fileExtensions") as [| | | | ext | l | | |];
      try reflexivity.
    + now destruct (Hstr ext).
    + now destruct (Harr l).
Qed.

(** [{fileExtensions: [".js", ".jsx"], "unknown-rule": true}]: the list is
    replaced even though [load] ends with an unsupported-rules error. *)
Lemma fileExtensions_replace_the_default_witness :
  let config := [("fileExtensions", VArray [VString ".js"; VString ".jsx"]);
                 ("unknown-rule", VBool true)] in
  fst (load config freshState) = Throw (Error "Unsupported rules: unknown-rule")
  /\ getFileExtensions (snd (load config freshState))
     = [VString ".js"; VString ".jsx"].
Proof.
  cbv zeta. split; [reflexivity|].
  apply (fileExtensions_replace_the_default
           [("fileExtensions", VArray [VString ".js"; VString ".jsx"]);
            ("unknown-rule", VBool true)]
           freshState freshState [] freshState);
    reflexivity.
Defined.

(** C7 as stated -- for every configuration whose [fileExtensions] key is
    present -- fails on two counts. The empty string is a string and the key
    is present, but line 103 tests the value for truthiness, so the list
    stays [['.js']] instead of becoming the one-element list of the empty
    string. And when an earlier step aborts [load], the list is not replaced
    either. *)
Lemma fileExtensions_counterexample :
  (let config := [("fileExtensions", VString "")] in
   In "fileExtensions" (keys config)
   /\ typeof (Get config "fileExtensions") = "string"
   /\ fst (load config freshState) = Normal tt
   /\ getFileExtensions (snd (load config freshState)) = [VString ".js"]
   /\ getFileExtensions (snd (load config freshState))
      <> [Get config "fileExtensions"])
  /\ (let config := [("plugins", VNumber 5);
                     ("fileExtensions", VString ".jsx")] in
      In "fileExtensions" (keys config)
      /\ load config freshState = (Throw InvalidPluginsType, freshState)
      /\ getFileExtensions (snd (load config freshState))
         <> [VString ".jsx"]).
Proof.
  cbv zeta. split.
  - split; [simpl; tauto|]. repeat split. discriminate.
  - split; [simpl; tauto|]. split; [reflexivity | discriminate].
Qed.

(** ** C8: the base additional-rule loader *)

(** C8, as the code has it. [_loadAdditionalRule] registers an object that
    answers [getOptionName()] under the name it answers (replacing a rule
    already there); it rejects with the additional-rule assertion error
    every value whose [typeof] is not ['object'] -- strings, numbers,
    booleans, functions, [undefined]; an object without a [getOptionName]
    method -- [null], an array, a plain object of data -- gets past that
    assertion and fails with the TypeError of line 162; and whenever the
    loader fails, nothing is registered. *)
Theorem loadAdditionalRule_base v s :
  (forall rule, v = VRule rule ->
     _loadAdditionalRule v s =
       (Normal tt,
        update_this
          (fun c => set_rules (assign (_rules c) (getOptionName rule) rule) c)
          s)
     /\ registered (snd (_loadAdditionalRule v s)) (getOptionName rule)
        = Some rule)
  /\ (typeof v <> "object" ->
      _loadAdditionalRule v s = (Throw InvalidAdditionalRule, s))
  /\ (forall str n body,
        _loadAdditionalRule (VString str) s = (Throw InvalidAdditionalRule, s)
        /\ _loadAdditionalRule (VNumber n) s
           = (Throw InvalidAdditionalRule, s)
        /\ _loadAdditionalRule (VFunction body) s
           = (Throw InvalidAdditionalRule, s))
  /\ (forall e s', _loadAdditionalRule v s = (Throw e, s') -> s' = s)
  /\ ((forall rule, v <> VRule rule) -> typeof v = "object" ->
      _loadAdditionalRule v s = (Throw TypeError, s)).
Proof.
  repeat split.
  - subst v. reflexivity.
  - subst v. unfold registered. simpl. apply lookup_assign_same.
  - intros Htype. destruct v; simpl in Htype; try congruence; reflexivity.
  - intros e s' H. destruct v; cbv in H; try discriminate;
      now injection H as _ <-.
  - intros Hrule Htype. destruct v; simpl in Htype; try discriminate;
      try reflexivity.
    now destruct (Hrule r).
Qed.

(** C8 as stated fails on a plain object: [{}] is not a rule, passes the
    [typeof] assertion, and is rejected by a TypeError when [registerRule]
    calls its missing [getOptionName]. *)
Lemma loadAdditionalRule_plain_object_counterexample :
  (forall rule, VObject [] <> VRule rule)
  /\ _loadAdditionalRule (VObject []) freshState = (Throw TypeError, freshState)
  /\ TypeError <> InvalidAdditionalRule
  /\ ~ (forall v s, (forall rule, v <> VRule rule) ->
          fst (_loadAdditionalRule v s) = Throw InvalidAdditionalRule).
Proof.
  split; [discriminate|]. split; [reflexivity|]. split; [discriminate|].
  intros H.
  specialize (H (VObject []) freshState).
  assert (Hnot : forall rule, VObject [] <> VRule rule) by discriminate.
  specialize (H Hnot). cbv in H. discriminate.
Qed.

(** A glob pattern is rejected by the base loader; a rule object is
    registered. *)
Lemma loadAdditionalRule_base_witness :
  let rule := mkRule 7 "custom-rule" in
  _loadAdditionalRule (VString "rules/*.js") freshState
    = (Throw InvalidAdditionalRule, freshState)
  /\ registered (snd (_loadAdditionalRule (VRule rule) freshState))
       "custom-rule" = Some rule.
Proof.
  cbv zeta. split.
  - destruct (loadAdditionalRule_base (VString "rules/*.js") freshState)
      as (_ & H & _).
    apply H. discriminate.
  - destruct (loadAdditionalRule_base (VRule (mkRule 7 "custom-rule"))
                freshState) as (H & _).
    destruct (H (mkRule 7 "custom-rule") eq_refl) as [_ H'].
    exact H'.
Defined.

(** ** C10: falsy reserved options *)

Lemma bind_ext {A B} (m : M A) (f g : A -> M B) s :
  (forall a s', f a s' = g a s') -> bind m f s = bind m g s.
Proof.
  intros H. unfold bind. destruct (m s) as [[a|e] s']; auto.
Qed.

Lemma Get_remove_other config k k' :
  k <> k' -> Get (remove config k) k' = Get config k'.
Proof. intros H. unfold Get. now rewrite lookup_remove_other. Qed.

Lemma Get_remove_same config k : Get (remove config k) k = VUndefined.
Proof. unfold Get. now rewrite lookup_remove_same. Qed.

(** A step that reads the configuration through one reserved key only sees
    no difference when a falsy option is deleted. *)
Lemma Get_remove_falsy config key k :
  ToBoolean (Get config key) = false ->
  Get (remove config key) k = Get config k
  \/ (ToBoolean (Get (remove config key) k) = false
      /\ ToBoolean (Get config k) = false).
Proof.
  intros Hfalsy. destruct (string_dec key k) as [<-|Hne].
  - right. now rewrite Get_remove_same.
  - left. now apply Get_remove_other.
Qed.

Lemma fold_skips_reserved source key (config : object) :
  BUILTIN_OPTIONS key = true ->
  forall target,
    fold_left (copyOption source) (keys (remove config key)) target =
    fold_left (copyOption source) (keys config) target.
Proof.
  intros Hkey. unfold keys, remove.
  induction config as [|[k v] config IH]; intros target; simpl; auto.
  destruct (k =? key) eqn:E; simpl.
  - apply String.eqb_eq in E. subst k.
    unfold copyOption at 3. rewrite Hkey. simpl. apply IH.
  - apply IH.
Qed.

Lemma copyOptions_remove_reserved config key target :
  BUILTIN_OPTIONS key = true ->
  copyOptions (remove config key) target = copyOptions config target.
Proof.
  intros Hkey. unfold copyOptions.
  rewrite <- (fold_skips_reserved config key config Hkey).
  generalize (keys (remove config key)). intros ks. revert target.
  induction ks as [|k ks IH]; intros target; simpl; auto.
  rewrite IH. f_equal. unfold copyOption.
  destruct (BUILTIN_OPTIONS k) eqn:E; simpl; auto.
  rewrite Get_remove_other; auto. congruence.
Qed.

(** C10. A reserved key bound to a falsy value ([false], [0], the empty
    string, [null]) is treated as absent: the processor and [load] behave on
    the configuration exactly as on the configuration with that key
    deleted -- same completion, same rule settings, same engine state. *)
Theorem falsy_reserved_option_is_absent config key s :
  In key reservedKeys ->
  ToBoolean (Get config key) = false ->
  _processConfig config s = _processConfig (remove config key) s
  /\ load config s = load (remove config key) s
  /\ Get (remove config key) key = VUndefined
  /\ (ToBoolean (VBool false) = false /\ ToBoolean (VNumber 0) = false
      /\ ToBoolean (VString "") = false /\ ToBoolean VNull = false).
Proof.
  intros Hres Hfalsy.
  assert (Hproc : forall s,
             _processConfig (remove config key) s = _processConfig config s).
  { intros s0. unfold _processConfig.
    replace (loadPlugins (remove config key)) with (loadPlugins config).
    replace (applyPreset (remove config key)) with (applyPreset config).
    replace (setFileExtensions (remove config key))
      with (setFileExtensions config).
    replace (setExcludedFiles (remove config key))
      with (setExcludedFiles config).
    replace (loadAdditionalRules (remove config key))
      with (loadAdditionalRules config).
    - do 5 (apply bind_ext; intros ? ?). unfold ret.
      rewrite copyOptions_remove_reserved; auto.
      now apply BUILTIN_OPTIONS_reserved.
    - unfold loadAdditionalRules.
      destruct (Get_remove_falsy config key "additionalRules" Hfalsy)
        as [->|[-> ->]]; reflexivity.
    - unfold setExcludedFiles.
      destruct (Get_remove_falsy config key "excludeFiles" Hfalsy)
        as [->|[-> ->]]; reflexivity.
    - unfold setFileExtensions.
      destruct (Get_remove_falsy config key "fileExtensions" Hfalsy)
        as [->|[-> ->]]; reflexivity.
    - unfold applyPreset.
      destruct (Get_remove_falsy config key "preset" Hfalsy)
        as [->|[-> ->]]; reflexivity.
    - unfold loadPlugins.
      destruct (Get_remove_falsy config key "plugins" Hfalsy)
        as [->|[-> ->]]; reflexivity. }
  split; [now rewrite Hproc|].
  split.
  - now rewrite !load_cases, Hproc.
  - split; [apply Get_remove_same | repeat split].
Qed.

(** [{fileExtensions: "", plugins: 0, disallowEmptyBlocks: true}]: the empty
    string is not installed as the extension list and raises nothing. *)
Lemma falsy_reserved_option_is_absent_witness :
  let config := [("fileExtensions", VString ""); ("plugins", VNumber 0);
                 ("disallowEmptyBlocks", VBool true)] in
  load config freshState
    = load [("plugins", VNumber 0); ("disallowEmptyBlocks", VBool true)]
        freshState
  /\ getFileExtensions (snd (load config freshState)) = [VString ".js"].
Proof.
  cbv zeta. split; [|reflexivity].
  apply (falsy_reserved_option_is_absent
           [("fileExtensions", VString ""); ("plugins", VNumber 0);
            ("disallowEmptyBlocks", VBool true)] "fileExtensions" freshState).
  - simpl. tauto.
  - reflexivity.
Defined.

(** ** C5: structural failures abort at once *)

Lemma forEach_app {A} (f : A -> M unit) l1 l2 s :
  forEach (l1 ++ l2) f s =
  match forEach l1 f s with
  | (Normal _, s1) => forEach l2 f s1
  | (Throw e, s1) => (Throw e, s1)
  end.
Proof.
  revert s. induction l1 as [|x l1 IH]; intros s; simpl; auto.
  unfold bind. destruct (f x s) as [[[]|e] s0]; auto.
Qed.

Lemma loadPlugin_not_callable plugin s :
  typeof plugin <> "function" ->
  _loadPlugin plugin s = (Throw InvalidPlugin, s).
Proof.
  intros H. destruct plugin; simpl in H; try congruence; reflexivity.
Qed.

Lemma loadPlugins_array config l s :
  Get config "plugins" = VArray l ->
  loadPlugins config s = forEach l _loadPlugin s.
Proof. intros H. unfold loadPlugins. now rewrite H. Qed.





(** ** C9: loading the same configuration twice *)

Lemma bind_assoc {A B C} (m : M A) (f : A -> M B) (g : B -> M C) s :
  bind (bind m f) g s = bind m (fun a => bind (f a) g) s.
Proof. unfold bind. destruct (m s) as [[a|e] s']; reflexivity. Qed.

(** *** Registering twice changes no lookup *)

Section AssignAll.
Context {A : Type}.
Implicit Types (ws o : list (string * A)) (k : string).

Lemma lookup_assignAll ws : forall o k,
  lookup (assignAll ws o) k = fold_left (written k) ws (lookup o k).
Proof.
  unfold assignAll.
  induction ws as [|w ws IH]; intros o k; simpl; auto.
  now rewrite IH, lookup_assign.
Qed.

Lemma written_cases ws k :
  (forall a, fold_left (written k) ws a = a)
  \/ (exists v, forall a, fold_left (written k) ws a = Some v).
Proof.
  induction ws as [|w ws IH]; simpl.
  - now left.
  - destruct IH as [IH|[v IH]].
    + unfold written at 2 4. destruct (fst w =? k).
      * right. exists (snd w). intros a. apply IH.
      * left. intros a. apply IH.
    + right. exists v. intros a. apply IH.
Qed.

Lemma lookup_assignAll_again ws o o' k :
  lookup o' k = lookup (assignAll ws o) k ->
  lookup (assignAll ws o') k = lookup (assignAll ws o) k.
Proof.
  intros H. rewrite (lookup_assignAll ws o'), H, !lookup_assignAll.
  destruct (written_cases ws k) as [Hc|[v Hc]]; now rewrite !Hc.
Qed.
End AssignAll.

Lemma sameRegistries_refl s : sameRegistries s s.
Proof. intros k. auto. Qed.

Lemma sameRegistries_writeAll_again rw pw s t :
  _rules (this t) = _rules (this (writeAll rw pw s)) ->
  _presets (this t) = _presets (this (writeAll rw pw s)) ->
  sameRegistries (writeAll rw pw s) (writeAll rw pw t).
Proof.
  intros Hr Hp k. simpl in *. split; symmetry.
  - apply lookup_assignAll_again. now rewrite Hr.
  - apply lookup_assignAll_again. now rewrite Hp.
Qed.

(** *** Everything after the plugins is stable *)

Lemma Stable_ext {A} (m m' : M A) :
  (forall s, m s = m' s) -> Stable m' -> Stable m.
Proof.
  intros Heq H s t Hst. destruct (H s t Hst) as (r & calls & s' & t' & Hx).
  exists r, calls, s', t'. now rewrite !Heq.
Qed.

Lemma Stable_ret {A} (a : A) : Stable (ret a).
Proof.
  intros s t _. exists (Normal a), [], s, t.
  rewrite !app_nil_r. unfold ret. tauto.
Qed.

Lemma Stable_throw {A} e : Stable (@throw A e).
Proof.
  intros s t _. exists (Throw e), [], s, t.
  rewrite !app_nil_r. unfold throw. tauto.
Qed.

Lemma Stable_bind {A B} (m : M A) (f : A -> M B) :
  Stable m -> (forall a, Stable (f a)) -> Stable (bind m f).
Proof.
  intros Hm Hf s t Hst.
  destruct (Hm s t Hst)
    as (r & c1 & s1 & t1 & Hs & Ht & Rs & Ps & Rt & Pt & Cs & Ct & Hcr).
  unfold bind. rewrite Hs, Ht. destruct r as [a|e].
  - assert (Hst1 : sameRegistries s1 t1).
    { intros k. rewrite Rs, Ps, Rt, Pt. apply Hst. }
    destruct (Hf a s1 t1 Hst1)
      as (r & c2 & s2 & t2 & Hs2 & Ht2 & Rs2 & Ps2 & Rt2 & Pt2 & Cs2 & Ct2
          & Hcr2).
    exists r, (c1 ++ c2)%list, s2, t2.
    rewrite Hs2, Ht2, Rs2, Ps2, Rt2, Pt2, Cs2, Ct2, Cs, Ct, !app_assoc.
    repeat (split; [auto|]).
    destruct Hcr2 as [[E1 E2]|[E1 E2]]; [|now right].
    destruct Hcr as [[E3 E4]|[E3 E4]].
    + left. now rewrite E1, E2.
    + right. now rewrite E1, E2.
  - exists (Throw e), c1, s1, t1. tauto.
Qed.

Lemma Stable_assert c message : Stable (assert c message).
Proof. destruct c; [apply Stable_ret | apply Stable_throw]. Qed.

Lemma Stable_read_preset presetName :
  Stable (read (fun c => readProperty (_presets c) presetName)).
Proof.
  intros s t Hst.
  exists (Normal (readProperty (_presets (this s)) presetName)), [], s, t.
  rewrite !app_nil_r. unfold read, readProperty.
  destruct (Hst presetName) as [_ ->]. tauto.
Qed.

Lemma Stable_read_rule optionName :
  Stable (read (fun c => lookup (_rules c) optionName)).
Proof.
  intros s t Hst.
  exists (Normal (lookup (_rules (this s)) optionName)), [], s, t.
  rewrite !app_nil_r. unfold read.
  destruct (Hst optionName) as [-> _]. tauto.
Qed.

Lemma Stable_set_fileExtensions l : Stable (modify (set_fileExtensions l)).
Proof.
  intros s t _.
  exists (Normal tt), [], (update_this (set_fileExtensions l) s),
    (update_this (set_fileExtensions l) t).
  rewrite !app_nil_r. simpl. unfold modify. tauto.
Qed.

Lemma Stable_set_excludedFiles l : Stable (modify (set_excludedFiles l)).
Proof.
  intros s t _.
  exists (Normal tt), [], (update_this (set_excludedFiles l) s),
    (update_this (set_excludedFiles l) t).
  rewrite !app_nil_r. simpl. unfold modify. tauto.
Qed.

Lemma Stable_set_configuredRules :
  Stable (modify (set_configuredRules None)).
Proof.
  intros s t _.
  exists (Normal tt), [], (update_this (set_configuredRules None) s),
    (update_this (set_configuredRules None) t).
  rewrite !app_nil_r. simpl. unfold modify. tauto.
Qed.

Lemma Stable_configure rule settings : Stable (configure rule settings).
Proof.
  intros s t _.
  exists (Normal tt), [(rule, settings)], (add_calls [(rule, settings)] s),
    (add_calls [(rule, settings)] t).
  simpl. unfold configure, add_calls. tauto.
Qed.

Lemma Stable_foldM {A B} (f : B -> A -> M B) l :
  (forall b x, Stable (f b x)) -> forall b, Stable (foldM f l b).
Proof.
  intros Hf. induction l as [|x l IH]; intros b; simpl.
  - apply Stable_ret.
  - apply Stable_bind; auto.
Qed.

Lemma Stable_applyPreset config ruleSettings :
  Stable (applyPreset config ruleSettings).
Proof.
  unfold applyPreset. destruct (ToBoolean (Get config "preset")).
  - destruct (Get config "preset"); try apply Stable_throw.
    apply Stable_bind; [apply Stable_read_preset|].
    intros [presetData| |]; [| |apply Stable_throw];
      (apply Stable_bind; [apply Stable_throw | intros; apply Stable_ret]).
  - apply Stable_ret.
Qed.

Lemma Stable_setFileExtensions config : Stable (setFileExtensions config).
Proof.
  unfold setFileExtensions. destruct (ToBoolean (Get config "fileExtensions")).
  - apply Stable_bind; [apply Stable_assert|].
    intros _. apply Stable_set_fileExtensions.
  - apply Stable_ret.
Qed.

Lemma Stable_setExcludedFiles config : Stable (setExcludedFiles config).
Proof.
  unfold setExcludedFiles. destruct (ToBoolean (Get config "excludeFiles")).
  - destruct (Get config "excludeFiles"); try apply Stable_throw.
    apply Stable_set_excludedFiles.
  - apply Stable_ret.
Qed.

Lemma Stable_loadAdditionalRules config : Stable (loadAdditionalRules config).
Proof.
  unfold loadAdditionalRules.
  destruct (ToBoolean (Get config "additionalRules")); [|apply Stable_ret].
  destruct (Get config "additionalRules");
    (eapply Stable_ext; cycle 1;
     [apply Stable_throw | intros ?; reflexivity]).
Qed.

Lemma Stable_configureOption ruleSettings unsupportedRules optionName :
  Stable (configureOption ruleSettings unsupportedRules optionName).
Proof.
  unfold configureOption. apply Stable_bind; [apply Stable_read_rule|].
  intros [rule|]; [|apply Stable_ret].
  apply Stable_bind; [apply Stable_configure | intros; apply Stable_ret].
Qed.

(** [load] is the plugin step followed by a stable remainder. *)
Lemma load_after_plugins config :
  exists rest : M unit,
    Stable rest
    /\ forall s, load config s = bind (loadPlugins config) (fun _ => rest) s.
Proof.
  eexists. split; cycle 1.
  - intros s. unfold load, _processConfig. rewrite bind_assoc. cbv beta.
    reflexivity.
  - cbv beta. apply Stable_bind.
    + apply Stable_bind; [apply Stable_applyPreset|]. intros rs.
      apply Stable_bind; [apply Stable_setFileExtensions|]. intros _.
      apply Stable_bind; [apply Stable_setExcludedFiles|]. intros _.
      apply Stable_bind; [apply Stable_loadAdditionalRules|]. intros _.
      apply Stable_ret.
    + intros rs. apply Stable_bind.
      * apply Stable_foldM. intros b x. apply Stable_configureOption.
      * intros names.
        apply Stable_bind; [apply Stable_set_configuredRules|]. intros _.
        destruct (0 <? Datatypes.length names)%nat;
          [apply Stable_throw | apply Stable_ret].
Qed.

(** C9. [load] run twice in a row with the same configuration, on any
    engine (a new one in particular): both calls complete alike -- both
    return, or both throw the same error --, [getConfiguredRules()] is the
    same after each, and both make the same [configure] calls, rule by rule
    and settings by settings. *)
Theorem load_twice_is_idempotent config s :
  let (r1, s1) := load config s in
  let (r2, s2) := load config s1 in
  r1 = r2
  /\ getConfiguredRules s2 = getConfiguredRules s1
  /\ exists calls,
       configureCalls s1 = (configureCalls s ++ calls)%list
       /\ configureCalls s2 = (configureCalls s1 ++ calls)%list.
Proof.
  destruct (load_after_plugins config) as (rest & Hrest & Hload).
  destruct (Oblivious_loadPlugins config) as (r & rw & pw & Hplugins).
  rewrite Hload. unfold bind at 1. rewrite Hplugins.
  destruct r as [[]|e].
  - destruct (Hrest _ _ (sameRegistries_refl (writeAll rw pw s)))
      as (r1 & c1 & s1 & s1' & Hs1 & Hs1' & Rs & Ps & _ & _ & Cs & _ & _).
    rewrite Hs1, Hload. unfold bind at 1. rewrite Hplugins.
    destruct (Hrest _ _ (sameRegistries_writeAll_again rw pw s s1 Rs Ps))
      as (r2 & c2 & t1 & s2 & Ht1 & Hs2 & _ & _ & _ & _ & Ct & Cs2 & Hcr).
    rewrite Hs2. rewrite Hs1 in Ht1. injection Ht1 as <- <-.
    split; [reflexivity|]. split.
    + unfold getConfiguredRules.
      destruct Hcr as [[_ ->]|[-> ->]]; reflexivity.
    + exists c2. split; [exact Ct | exact Cs2].
  - rewrite Hload. unfold bind at 1. rewrite Hplugins.
    split; [reflexivity|]. split; [reflexivity|].
    exists []. now rewrite !app_nil_r.
Qed.

(** Scenario 4 of the specification, loaded twice on a new engine: the
    plugin registers [custom-rule], which is configured with [5] by each
    call; the accessor answers [undefined] after each. *)
Example load_twice_with_plugin :
  let rule := mkRule 9 "custom-rule" in
  let config := [("plugins", VArray [VFunction [CallRegisterRule rule]]);
                 ("custom-rule", VNumber 5)] in
  let (r1, s1) := load config freshState in
  let (r2, s2) := load config s1 in
  r1 = Normal tt /\ r2 = Normal tt
  /\ configureCalls s1 = [(rule, VNumber 5)]
  /\ configureCalls s2 = [(rule, VNumber 5); (rule, VNumber 5)]
  /\ getConfiguredRules s1 = None /\ getConfiguredRules s2 = None.
Proof. cbv. repeat split. Qed.

(** * Further properties of the engine *)

(** ** What each step of the processor does to the engine *)

Lemma update_fileExtensions_same s :
  update_this (set_fileExtensions (getFileExtensions s)) s = s.
Proof. destruct s as [[? ? ? ? ?] ?]. reflexivity. Qed.

Lemma update_excludedFiles_same s :
  update_this (set_excludedFiles (getExcludedFiles s)) s = s.
Proof. destruct s as [[? ? ? ? ?] ?]. reflexivity. Qed.

Lemma applyPreset_state config ruleSettings s r s' :
  applyPreset config ruleSettings s = (r, s') -> s' = s.
Proof.
  unfold applyPreset. destruct (ToBoolean (Get config "preset")).
  - destruct (Get config "preset") as [| | | | name | | | |];
      try (unfold throw; intros H; now injection H as _ <-).
    unfold bind, read.
    destruct (readProperty (_presets (this s)) name);
      cbv; intros H; now injection H as _ <-.
  - unfold ret. intros H. now injection H as _ <-.
Qed.

Lemma setFileExtensions_effect config s r s' :
  setFileExtensions config s = (r, s') ->
  exists fe,
    s' = update_this (set_fileExtensions fe) s
    /\ (fe = getFileExtensions s
        \/ (ToBoolean (Get config "fileExtensions") = true
            /\ fe = concat_into_empty (Get config "fileExtensions")
            /\ (typeof (Get config "fileExtensions") = "string"
                \/ isArray (Get config "fileExtensions") = true))).
Proof.
  unfold setFileExtensions.
  destruct (ToBoolean (Get config "fileExtensions")) eqn:E.
  - destruct (Get config "fileExtensions") as [| | | | ext | l | | |];
      simpl; intros H; cbv in H; injection H as _ <-;
      first [ exists (getFileExtensions s);
              split; [now rewrite update_fileExtensions_same | now left]
            | eexists; split; [reflexivity|]; right; auto ].
  - unfold ret. intros H. injection H as _ <-.
    exists (getFileExtensions s).
    split; [now rewrite update_fileExtensions_same | now left].
Qed.

Lemma setExcludedFiles_effect config s r s' :
  setExcludedFiles config s = (r, s') ->
  exists ex,
    s' = update_this (set_excludedFiles ex) s
    /\ (ex = getExcludedFiles s \/ Get config "excludeFiles" = VArray ex).
Proof.
  unfold setExcludedFiles.
  destruct (ToBoolean (Get config "excludeFiles")) eqn:E.
  - destruct (Get config "excludeFiles") as [| | | | ext | l | | |];
      simpl; intros H; cbv in H; injection H as _ <-;
      first [ exists (getExcludedFiles s);
              split; [now rewrite update_excludedFiles_same | now left]
            | eexists; split; [reflexivity|]; right; auto ].
  - unfold ret. intros H. injection H as _ <-.
    exists (getExcludedFiles s).
    split; [now rewrite update_excludedFiles_same | now left].
Qed.

Lemma loadPlugins_absent config s :
  ToBoolean (Get config "plugins") = false ->
  loadPlugins config s = (Normal tt, s).
Proof. intros H. unfold loadPlugins. now rewrite H. Qed.

(** The engine [_processConfig] leaves behind, however it completes: the
    registrations of the plugins, then possibly a new extension list, then
    possibly a new exclusion list -- and nothing else. *)
Lemma processConfig_effect config s r s' :
  _processConfig config s = (r, s') ->
  exists rw pw fe ex,
    s' = update_this (set_excludedFiles ex)
           (update_this (set_fileExtensions fe) (writeAll rw pw s))
    /\ (fe = getFileExtensions s
        \/ (ToBoolean (Get config "fileExtensions") = true
            /\ fe = concat_into_empty (Get config "fileExtensions")
            /\ (typeof (Get config "fileExtensions") = "string"
                \/ isArray (Get config "fileExtensions") = true)))
    /\ (ex = getExcludedFiles s \/ Get config "excludeFiles" = VArray ex)
    /\ (ToBoolean (Get config "plugins") = false -> rw = [] /\ pw = []).
Proof.
  rewrite processConfig_steps.
  assert (Hplug : exists rp rw pw,
             loadPlugins config s = (rp, writeAll rw pw s)
             /\ (ToBoolean (Get config "plugins") = false ->
                 rw = [] /\ pw = [])).
  { destruct (ToBoolean (Get config "plugins")) eqn:E.
    - destruct (Oblivious_loadPlugins config) as (rp & rw & pw & H).
      exists rp, rw, pw. split; [apply H | discriminate].
    - exists (Normal tt), [], []. rewrite writeAll_nil.
      split; [now apply loadPlugins_absent | auto]. }
  destruct Hplug as (rp & rw & pw & Hp & Habsent). rewrite Hp.
  set (s1 := writeAll rw pw s).
  assert (Hstay : s1 = update_this (set_excludedFiles (getExcludedFiles s))
                         (update_this (set_fileExtensions
                                         (getFileExtensions s)) s1)).
  { change (getExcludedFiles s) with
      (getExcludedFiles (update_this (set_fileExtensions
                                        (getFileExtensions s)) s1)).
    rewrite update_excludedFiles_same.
    change (getFileExtensions s) with (getFileExtensions s1).
    now rewrite update_fileExtensions_same. }
  destruct rp as [[]|e].
  2:{ intros H. injection H as _ <-.
      exists rw, pw, (getFileExtensions s), (getExcludedFiles s). auto. }
  destruct (applyPreset config [] s1) as [[rs|e] s2] eqn:E2;
    apply applyPreset_state in E2; subst s2.
  2:{ intros H. injection H as _ <-.
      exists rw, pw, (getFileExtensions s), (getExcludedFiles s). auto. }
  destruct (setFileExtensions config s1) as [r3 s3] eqn:E3.
  destruct (setFileExtensions_effect _ _ _ _ E3) as (fe & -> & Hfe).
  change (getFileExtensions s1) with (getFileExtensions s) in Hfe.
  assert (Hstay3 :
            update_this (set_fileExtensions fe) s1
            = update_this (set_excludedFiles (getExcludedFiles s))
                (update_this (set_fileExtensions fe) s1)).
  { change (getExcludedFiles s) with
      (getExcludedFiles (update_this (set_fileExtensions fe) s1)).
    now rewrite update_excludedFiles_same. }
  destruct r3 as [[]|e].
  2:{ intros H. injection H as _ <-.
      exists rw, pw, fe, (getExcludedFiles s). auto. }
  destruct (setExcludedFiles config (update_this (set_fileExtensions fe) s1))
    as [r4 s4] eqn:E4.
  destruct (setExcludedFiles_effect _ _ _ _ E4) as (ex & -> & Hex).
  change (getExcludedFiles (update_this (set_fileExtensions fe) s1))
    with (getExcludedFiles s) in Hex.
  destruct r4 as [[]|e].
  2:{ intros H. injection H as _ <-. exists rw, pw, fe, ex. auto. }
  match goal with
  | |- context [loadAdditionalRules config ?x] =>
      destruct (loadAdditionalRules config x) as [r5 s5] eqn:E5
  end.
  apply loadAdditionalRules_state in E5. subst s5.
  destruct r5 as [[]|e]; intros H; injection H as _ <-;
    exists rw, pw, fe, ex; auto.
Qed.

(** The same for [load]: on top of the processor's effect, the [configure]
    calls and the overwritten [_configuredRules]. *)
Lemma load_effect config s :
  exists s1 rp,
    _processConfig config s = (rp, s1)
    /\ getFileExtensions (snd (load config s)) = getFileExtensions s1
    /\ getExcludedFiles (snd (load config s)) = getExcludedFiles s1
    /\ _rules (this (snd (load config s))) = _rules (this s1)
    /\ _presets (this (snd (load config s))) = _presets (this s1).
Proof.
  destruct (_processConfig config s) as [rp s1] eqn:E.
  exists s1, rp. split; [reflexivity|].
  rewrite load_cases, E. destruct rp; simpl; auto.
Qed.

(** ** X1: excluded files *)

(** X1. When the processor reaches the file-excludes step (the plugin,
    preset and file-extensions steps have completed) and [excludeFiles] is
    an array, that array is what [getExcludedFiles()] returns after [load],
    whether [load] then returns or throws; its elements are not inspected.
    In particular [load({excludeFiles: ["node_modules/**"]})] on a new
    engine, whose list is empty, returns and leaves that one mask. *)
Theorem excludeFiles_replace_the_list config s s1 rs s2 s3 l :
  loadPlugins config s = (Normal tt, s1) ->
  applyPreset config [] s1 = (Normal rs, s2) ->
  setFileExtensions config s2 = (Normal tt, s3) ->
  Get config "excludeFiles" = VArray l ->
  getExcludedFiles (snd (load config s)) = l
  /\ (getExcludedFiles freshState = []
      /\ load [("excludeFiles", VArray [VString "node_modules/**"])] freshState
         = (Normal tt,
            update_this (set_configuredRules None)
              (update_this (set_excludedFiles [VString "node_modules/**"])
                 freshState))).
Proof.
  intros H1 H2 H3 Hget. split; [|split; reflexivity].
  destruct (load_effect config s) as (s5 & rp & Hp & _ & -> & _).
  rewrite processConfig_steps, H1, H2, H3 in Hp.
  unfold setExcludedFiles in Hp. rewrite Hget in Hp. simpl in Hp.
  unfold modify in Hp.
  match type of Hp with
  | context [loadAdditionalRules config ?x] =>
      destruct (loadAdditionalRules config x) as [r5 s5'] eqn:E5
  end.
  apply loadAdditionalRules_state in E5. subst s5'.
  destruct r5 as [[]|e]; injection Hp as _ <-; reflexivity.
Qed.

(** [{excludeFiles: ["lib/**", 7], additionalRules: 1}]: the list is
    replaced, unchecked, before the additional-rules step aborts. *)
Lemma excludeFiles_replace_the_list_witness :
  let config := [("excludeFiles", VArray [VString "lib/**"; VNumber 7]);
                 ("additionalRules", VNumber 1)] in
  fst (load config freshState) = Throw InvalidAdditionalRulesType
  /\ getExcludedFiles (snd (load config freshState))
     = [VString "lib/**"; VNumber 7].
Proof.
  cbv zeta. split; [reflexivity|].
  apply (excludeFiles_replace_the_list
           [("excludeFiles", VArray [VString "lib/**"; VNumber 7]);
            ("additionalRules", VNumber 1)]
           freshState freshState [] freshState freshState);
    reflexivity.
Defined.

(** ** X2-X4: what [load] leaves alone *)

(** X2. [load] changes the two file lists only from their own options:
    after any [load], [getFileExtensions()] is what it was, or the
    normalised value of a truthy string-or-array [fileExtensions]; and
    [getExcludedFiles()] is what it was, or the array [excludeFiles]. *)
Theorem load_sets_file_lists_from_their_options config s :
  (getFileExtensions (snd (load config s)) = getFileExtensions s
   \/ (ToBoolean (Get config "fileExtensions") = true
       /\ getFileExtensions (snd (load config s))
          = concat_into_empty (Get config "fileExtensions")
       /\ (typeof (Get config "fileExtensions") = "string"
           \/ isArray (Get config "fileExtensions") = true)))
  /\ (getExcludedFiles (snd (load config s)) = getExcludedFiles s
      \/ Get config "excludeFiles"
         = VArray (getExcludedFiles (snd (load config s)))).
Proof.
  destruct (load_effect config s) as (s1 & rp & Hp & -> & -> & _).
  destruct (processConfig_effect _ _ _ _ Hp)
    as (rw & pw & fe & ex & -> & Hfe & Hex & _).
  split.
  - change (getFileExtensions
              (update_this (set_excludedFiles ex)
                 (update_this (set_fileExtensions fe) (writeAll rw pw s))))
      with fe.
    destruct Hfe as [->|(Ht & -> & Hty)]; auto.
  - change (getExcludedFiles
              (update_this (set_excludedFiles ex)
                 (update_this (set_fileExtensions fe) (writeAll rw pw s))))
      with ex.
    destruct Hex as [->|Hex]; auto.
Qed.

(** X3. Without a [plugins] option (absent or falsy), [load] leaves both
    registries exactly as they were, whatever else the configuration holds
    and however [load] completes: in particular nothing listed under
    [additionalRules] is ever registered. *)
Theorem load_without_plugins_keeps_registries config s :
  ToBoolean (Get config "plugins") = false ->
  _rules (this (snd (load config s))) = _rules (this s)
  /\ _presets (this (snd (load config s))) = _presets (this s).
Proof.
  intros Habsent.
  destruct (load_effect config s) as (s1 & rp & Hp & _ & _ & -> & ->).
  destruct (processConfig_effect _ _ _ _ Hp)
    as (rw & pw & fe & ex & -> & _ & _ & Hnil).
  destruct (Hnil Habsent) as [-> ->]. split; reflexivity.
Qed.

(** [{additionalRules: [rule], "custom-rule": true}] on a new engine. *)
Lemma load_without_plugins_keeps_registries_witness :
  let config := [("additionalRules", VArray [VRule (mkRule 2 "custom-rule")]);
                 ("custom-rule", VBool true)] in
  _rules (this (snd (load config freshState))) = []
  /\ _presets (this (snd (load config freshState))) = [].
Proof.
  cbv zeta.
  apply (load_without_plugins_keeps_registries
           [("additionalRules", VArray [VRule (mkRule 2 "custom-rule")]);
            ("custom-rule", VBool true)] freshState).
  reflexivity.
Defined.

(** X4. The processor itself configures nothing: however [_processConfig]
    completes, no [configure] call has been made and [_configuredRules] is
    untouched; and when it throws, [load] throws the same error and stops
    there, so neither changes in a [load] that fails in the processor. *)
Theorem processConfig_configures_nothing config s :
  configureCalls (snd (_processConfig config s)) = configureCalls s
  /\ getConfiguredRules (snd (_processConfig config s)) = getConfiguredRules s
  /\ (forall e, fst (_processConfig config s) = Throw e ->
        load config s = (Throw e, snd (_processConfig config s))).
Proof.
  destruct (_processConfig config s) as [rp s1] eqn:Hp.
  destruct (processConfig_effect _ _ _ _ Hp)
    as (rw & pw & fe & ex & -> & _).
  repeat split. simpl. intros e ->.
  now apply load_processConfig_throws.
Qed.

(** [{preset: 5, "disallowEmptyBlocks": true}]: the processor rejects the
    preset, and the registered rule is not configured. *)
Lemma processConfig_configures_nothing_witness :
  let s := snd (registerRule (mkRule 1 "disallowEmptyBlocks") freshState) in
  let config := [("preset", VNumber 5); ("disallowEmptyBlocks", VBool true)] in
  load config s = (Throw InvalidPresetType, s)
  /\ configureCalls (snd (load config s)) = [].
Proof.
  cbv zeta. split; [|reflexivity].
  destruct (processConfig_configures_nothing
              [("preset", VNumber 5); ("disallowEmptyBlocks", VBool true)]
              (snd (registerRule (mkRule 1 "disallowEmptyBlocks") freshState)))
    as (_ & _ & H).
  apply (H InvalidPresetType). reflexivity.
Defined.


(** ** X5: when [load] returns *)




(** ** X6-X7: the copy loop *)

Section KeysOfAssign.
Context {A : Type}.
Implicit Types (o : list (string * A)) (k : string) (v : A).

Lemma keys_assign_present o k v :
  In k (keys o) -> keys (assign o k v) = keys o.
Proof.
  unfold keys. induction o as [|[k0 w] o IH]; simpl; intros Hin.
  - contradiction.
  - destruct (k0 =? k) eqn:E; simpl; auto.
    apply String.eqb_neq in E. f_equal. apply IH. tauto.
Qed.

Lemma keys_assign_fresh o k v :
  ~ In k (keys o) -> keys (assign o k v) = (keys o ++ [k])%list.
Proof.
  intros H. rewrite assign_fresh by exact H.
  unfold keys. now rewrite map_app.
Qed.

Lemma NoDup_keys_assign o k v :
  NoDup (keys o) -> NoDup (keys (assign o k v)).
Proof.
  intros Hnd. destruct (in_dec string_dec k (keys o)) as [Hin|Hin].
  - now rewrite keys_assign_present.
  - rewrite keys_assign_fresh by exact Hin.
    apply NoDup_app; [exact Hnd | repeat constructor; auto |].
    intros x Hx [<-|[]]. contradiction.
Qed.
End KeysOfAssign.

Lemma fold_copy_NoDup source ks : forall target,
  NoDup (keys target) ->
  NoDup (keys (fold_left (copyOption source) ks target)).
Proof.
  induction ks as [|x ks IH]; intros target Hnd; simpl; auto.
  apply IH. unfold copyOption.
  destruct (negb (BUILTIN_OPTIONS x)); auto.
  now apply NoDup_keys_assign.
Qed.

Lemma fold_copy_fresh source ks : forall target,
  NoDup ks ->
  (forall k, In k ks -> BUILTIN_OPTIONS k = false /\ ~ In k (keys target)) ->
  fold_left (copyOption source) ks target
  = (target ++ map (fun k => (k, Get source k)) ks)%list.
Proof.
  induction ks as [|x ks IH]; intros target Hnd Hks; simpl.
  - now rewrite app_nil_r.
  - inversion Hnd as [|? ? Hx Hnd']; subst.
    destruct (Hks x (or_introl eq_refl)) as [Hb Hfresh].
    unfold copyOption at 2. rewrite Hb. simpl.
    rewrite assign_fresh by exact Hfresh.
    rewrite IH; [now rewrite <- app_assoc | exact Hnd' |].
    intros k Hk. destruct (Hks k (or_intror Hk)) as [Hbk Hfk].
    split; [exact Hbk|].
    unfold keys. rewrite map_app, in_app_iff. simpl.
    intros [H|[<-|[]]]; [now apply Hfk | contradiction].
Qed.

Lemma map_Get_keys (config : object) :
  NoDup (keys config) ->
  map (fun k => (k, Get config k)) (keys config) = config.
Proof.
  unfold keys, Get.
  induction config as [|[k v] config IH]; simpl; intros Hnd; auto.
  inversion Hnd as [|? ? Hk Hnd']; subst.
  rewrite String.eqb_refl. f_equal.
  rewrite <- (IH Hnd') at 2. apply map_ext_in.
  intros k' Hk'. destruct (k =? k') eqn:E; auto.
  apply String.eqb_eq in E. subst. contradiction.
Qed.

Lemma Get_missing (config : object) k :
  ~ In k (keys config) -> Get config k = VUndefined.
Proof.
  intros H. apply lookup_None_iff in H. unfold Get. now rewrite H.
Qed.

(** X6. A configuration made of rule options only -- no reserved key, no
    key named like a member of [Object.prototype], no key twice -- goes
    through the processor untouched: [_processConfig] returns the
    configuration itself as the rule settings and leaves the engine as it
    was, so [load] configures or rejects exactly its keys, in their
    order. *)
Theorem options_only_configuration_resolves_to_itself config s :
  NoDup (keys config) ->
  (forall k, In k (keys config) ->
     ~ In k reservedKeys /\ inheritedFromObjectPrototype k = false) ->
  _processConfig config s = (Normal config, s)
  /\ load config s = finishLoad config s.
Proof.
  intros Hnd Hplain.
  assert (Habsent : forall r, In r reservedKeys -> Get config r = VUndefined).
  { intros r Hr. apply Get_missing. intros Hin.
    now destruct (Hplain r Hin). }
  assert (Hproc : _processConfig config s = (Normal config, s)).
  { rewrite processConfig_steps.
    unfold loadPlugins, applyPreset, setFileExtensions, setExcludedFiles,
      loadAdditionalRules.
    rewrite !Habsent by (simpl; tauto). simpl.
    unfold ret. f_equal. unfold copyOptions.
    rewrite fold_copy_fresh.
    - simpl. now rewrite map_Get_keys.
    - exact Hnd.
    - intros k Hk. split; [now apply BUILTIN_OPTIONS_false_iff, Hplain|].
      auto. }
  split; [exact Hproc | now apply load_after_processConfig].
Qed.

(** [{b: 1, a: null}] on an engine that knows [a]: [b] is rejected, [a] is
    configured with [null]. *)
Lemma options_only_configuration_resolves_to_itself_witness :
  let s := snd (registerRule (mkRule 4 "a") freshState) in
  let config := [("b", VNumber 1); ("a", VNull)] in
  _processConfig config s = (Normal config, s)
  /\ load config s
     = (Throw (Error "Unsupported rules: b"),
        update_this (set_configuredRules None)
          (add_calls [(mkRule 4 "a", VNull)] s)).
Proof.
  cbv zeta.
  apply (options_only_configuration_resolves_to_itself
           [("b", VNumber 1); ("a", VNull)]
           (snd (registerRule (mkRule 4 "a") freshState))).
  - apply NoDup_cons; [simpl; intros [H|[]]; discriminate|].
    apply NoDup_cons; [simpl; tauto | apply NoDup_nil].
  - simpl. intros k [<-|[<-|[]]];
      (split; [intuition discriminate | reflexivity]).
Defined.

Lemma fold_copy_In_keys source ks : forall target k,
  In k (keys (fold_left (copyOption source) ks target)) <->
  In k (keys target) \/ (In k ks /\ BUILTIN_OPTIONS k = false).
Proof.
  induction ks as [|x ks IH]; intros target k; simpl.
  - tauto.
  - rewrite IH. unfold copyOption.
    destruct (BUILTIN_OPTIONS x) eqn:Hb; simpl.
    + split; [tauto|]. intros [H|[[<-|H] Hk]]; auto. congruence.
    + rewrite In_keys_assign. split.
      * intros [[->|H]|[H Hk]]; auto.
      * intros [H|[[<-|H] Hk]]; auto.
Qed.

(** X7. The copy loop of lines 95-99 and 125-129 merges [source] into
    [target] with [source] winning. Every key of [source] that the test
    [!BUILTIN_OPTIONS[key]] lets through ends up bound to [source]'s value;
    every other binding of [target] is kept; the keys of the result are
    those of [target] and those let through, and none is duplicated. *)
Theorem copyOptions_merges_with_source_winning source target :
  (forall k, In k (keys source) -> BUILTIN_OPTIONS k = false ->
     lookup (copyOptions source target) k = Some (Get source k))
  /\ (forall k, ~ In k (keys source) \/ BUILTIN_OPTIONS k = true ->
        lookup (copyOptions source target) k = lookup target k)
  /\ (forall k, In k (keys (copyOptions source target)) <->
                In k (keys target)
                \/ (In k (keys source) /\ BUILTIN_OPTIONS k = false))
  /\ (NoDup (keys target) -> NoDup (keys (copyOptions source target))).
Proof.
  split; [|split; [|split]].
  - intros k Hk Hb. now apply copyOptions_copied.
  - intros k Hk. now apply copy_lookup_untouched.
  - intros k. apply fold_copy_In_keys.
  - apply fold_copy_NoDup.
Qed.

(** A preset result [{a: 1, b: 2}] overridden by
    [{preset: "p", b: 3, c: 4, valueOf: 5}]. *)
Lemma copyOptions_merges_with_source_winning_witness :
  let source := [("preset", VString "p"); ("b", VNumber 3);
                 ("c", VNumber 4); ("valueOf", VNumber 5)] in
  let target := [("a", VNumber 1); ("b", VNumber 2)] in
  lookup (copyOptions source target) "b" = Some (VNumber 3)
  /\ lookup (copyOptions source target) "a" = Some (VNumber 1)
  /\ lookup (copyOptions source target) "valueOf" = None
  /\ lookup (copyOptions source target) "preset" = None.
Proof.
  cbv zeta.
  destruct (copyOptions_merges_with_source_winning
              [("preset", VString "p"); ("b", VNumber 3);
               ("c", VNumber 4); ("valueOf", VNumber 5)]
              [("a", VNumber 1); ("b", VNumber 2)]) as (H1 & H2 & _).
  split; [|split; [|split]].
  - apply (H1 "b"); [simpl; tauto | reflexivity].
  - apply (H2 "a"). left. simpl. intuition discriminate.
  - apply (H2 "valueOf"). right. reflexivity.
  - apply (H2 "preset"). right. reflexivity.
Defined.

(** ** X8-X9: the rule registry *)

Lemma registered_registerRule s rule k :
  registered (snd (registerRule rule s)) k
  = if getOptionName rule =? k then Some rule else registered s k.
Proof. unfold registered. simpl. apply lookup_assign. Qed.






(** X9. Rules with different option names can be registered in either
    order: every lookup answers the same afterwards, and the preset
    registry is not involved. *)
Theorem registrations_under_different_names_commute s r1 r2 :
  getOptionName r1 <> getOptionName r2 ->
  let s12 := snd (registerRule r2 (snd (registerRule r1 s))) in
  let s21 := snd (registerRule r1 (snd (registerRule r2 s))) in
  (forall k, registered s12 k = registered s21 k)
  /\ registered s12 (getOptionName r1) = Some r1
  /\ registered s12 (getOptionName r2) = Some r2
  /\ _presets (this s12) = _presets (this s)
  /\ _presets (this s21) = _presets (this s).
Proof.
  intros Hne s12 s21. unfold s12, s21.
  assert (E12 : (getOptionName r2 =? getOptionName r1) = false)
    by (apply String.eqb_neq; congruence).
  repeat split.
  - intros k. rewrite !registered_registerRule.
    destruct (getOptionName r2 =? k) eqn:E2;
      destruct (getOptionName r1 =? k) eqn:E1; auto.
    apply String.eqb_eq in E1, E2. congruence.
  - now rewrite !registered_registerRule, E12, String.eqb_refl.
  - now rewrite registered_registerRule, String.eqb_refl.
Qed.

Lemma registrations_under_different_names_commute_witness :
  let r1 := mkRule 1 "requireCurlyBraces" in
  let r2 := mkRule 2 "disallowEmptyBlocks" in
  registered (snd (registerRule r2 (snd (registerRule r1 freshState))))
    "requireCurlyBraces"
  = registered (snd (registerRule r1 (snd (registerRule r2 freshState))))
      "requireCurlyBraces"
  /\ keys (_rules (this (snd (registerRule r2
                                (snd (registerRule r1 freshState))))))
     <> keys (_rules (this (snd (registerRule r1
                                   (snd (registerRule r2 freshState)))))).
Proof.
  cbv zeta. split; [|discriminate].
  destruct (registrations_under_different_names_commute freshState
              (mkRule 1 "requireCurlyBraces") (mkRule 2 "disallowEmptyBlocks"))
    as (H & _).
  - discriminate.
  - exact (H "requireCurlyBraces").
Defined.

(** ** X10-X11: plugins *)

Lemma forEach_exec_normal pre s :
  (forall st e, In st pre -> st <> ThrowStatement e) ->
  fst (forEach pre exec s) = Normal tt.
Proof.
  revert s. induction pre as [|st pre IH]; intros s Hpre; simpl; auto.
  unfold bind.
  destruct st as [r|name cfg|e].
  - simpl. apply IH. intros st e Hin. apply Hpre. now right.
  - simpl. apply IH. intros st e Hin. apply Hpre. now right.
  - exfalso. apply (Hpre (ThrowStatement e) e); [now left | reflexivity].
Qed.

(** X10. Whatever makes a plugin fail -- the plugin is not a function, or
    its body throws -- [load] throws that very error at that entry: the
    later entries and the later steps do not run, and what the earlier
    entries, and the failing body before its [throw], registered stays
    registered. *)
Theorem plugin_failure_aborts_load config s before plugin after s1 e s2 :
  Get config "plugins" = VArray (before ++ plugin :: after) ->
  forEach before _loadPlugin s = (Normal tt, s1) ->
  _loadPlugin plugin s1 = (Throw e, s2) ->
  load config s = (Throw e, s2)
  /\ (forall pre post e',
        plugin = VFunction (pre ++ ThrowStatement e' :: post) ->
        (forall st e0, In st pre -> st <> ThrowStatement e0) ->
        e = e' /\ s2 = snd (forEach pre exec s1)).
Proof.
  intros Hget Hbefore Hplugin. split.
  - apply load_processConfig_throws.
    rewrite processConfig_steps, (loadPlugins_array _ _ _ Hget).
    rewrite forEach_app, Hbefore. simpl.
    unfold bind at 1. now rewrite Hplugin.
  - intros pre post e' -> Hpre.
    unfold _loadPlugin in Hplugin. simpl in Hplugin.
    unfold bind at 1 in Hplugin. simpl in Hplugin.
    rewrite forEach_app in Hplugin.
    pose proof (forEach_exec_normal pre s1 Hpre) as Hn.
    destruct (forEach pre exec s1) as [r sp]. simpl in Hn. subst r.
    simpl in Hplugin. unfold bind, throw in Hplugin.
    injection Hplugin as <- <-. auto.
Qed.

(** [{plugins: [f, g, h]}]: [f] registers a rule, [g] registers a preset and
    then throws, [h] never runs. *)
Lemma plugin_failure_aborts_load_witness :
  let f := VFunction [CallRegisterRule (mkRule 1 "custom-rule")] in
  let g := VFunction [CallRegisterPreset "mine" [];
                      ThrowStatement (Error "boom");
                      CallRegisterPreset "late" []] in
  let h := VFunction [CallRegisterRule (mkRule 2 "other-rule")] in
  let s' := snd (load [("plugins", VArray [f; g; h])] freshState) in
  fst (load [("plugins", VArray [f; g; h])] freshState)
    = Throw (Error "boom")
  /\ keys (_rules (this s')) = ["custom-rule"]
  /\ keys (_presets (this s')) = ["mine"].
Proof.
  cbv zeta.
  destruct (plugin_failure_aborts_load
    [("plugins",
      VArray [VFunction [CallRegisterRule (mkRule 1 "custom-rule")];
              VFunction [CallRegisterPreset "mine" [];
                         ThrowStatement (Error "boom");
                         CallRegisterPreset "late" []];
              VFunction [CallRegisterRule (mkRule 2 "other-rule")]])]
    freshState
    [VFunction [CallRegisterRule (mkRule 1 "custom-rule")]]
    (VFunction [CallRegisterPreset "mine" [];
                ThrowStatement (Error "boom");
                CallRegisterPreset "late" []])
    [VFunction [CallRegisterRule (mkRule 2 "other-rule")]]
    (snd (registerRule (mkRule 1 "custom-rule") freshState))
    (Error "boom")
    (snd (registerPreset "mine" []
            (snd (registerRule (mkRule 1 "custom-rule") freshState))))
    eq_refl eq_refl eq_refl) as [H _].
  rewrite H. repeat split.
Defined.



(** ** X12: the additional-rule loader and [load] *)

Lemma load_is_loadWith config s :
  loadWith _loadPlugin _loadAdditionalRule config s = load config s.
Proof. reflexivity. Qed.

(** The additional-rules step does the same whatever loader it is given:
    the loader is handed to [forEach] on a receiver that is never an
    array. *)
Lemma loadAdditionalRulesWith_any loader config s :
  loadAdditionalRulesWith loader config s = loadAdditionalRules config s.
Proof.
  unfold loadAdditionalRulesWith, loadAdditionalRules.
  destruct (ToBoolean (Get config "additionalRules")); [|reflexivity].
  destruct (Get config "additionalRules"); reflexivity.
Qed.

Lemma processConfigWith_steps loadPlugin loadAdditionalRule config s :
  processConfigWith loadPlugin loadAdditionalRule config s =
  match loadPluginsWith loadPlugin config s with
  | (Throw e, s1) => (Throw e, s1)
  | (Normal _, s1) =>
    match applyPreset config [] s1 with
    | (Throw e, s2) => (Throw e, s2)
    | (Normal ruleSettings, s2) =>
      match setFileExtensions config s2 with
      | (Throw e, s3) => (Throw e, s3)
      | (Normal _, s3) =>
        match setExcludedFiles config s3 with
        | (Throw e, s4) => (Throw e, s4)
        | (Normal _, s4) =>
          match loadAdditionalRules config s4 with
          | (Throw e, s5) => (Throw e, s5)
          | (Normal _, s5) => (Normal (copyOptions config ruleSettings), s5)
          end
        end
      end
    end
  end.
Proof.
  unfold processConfigWith, bind, ret.
  destruct (loadPluginsWith loadPlugin config s) as [[[]|e] s1];
    [|reflexivity].
  destruct (applyPreset config [] s1) as [[rs|e] s2]; [|reflexivity].
  destruct (setFileExtensions config s2) as [[[]|e] s3]; [|reflexivity].
  destruct (setExcludedFiles config s3) as [[[]|e] s4]; [|reflexivity].
  now rewrite loadAdditionalRulesWith_any.
Qed.

Lemma loadWith_cases loadPlugin loadAdditionalRule config s :
  loadWith loadPlugin loadAdditionalRule config s =
  match processConfigWith loadPlugin loadAdditionalRule config s with
  | (Normal ruleSettings, s1) => finishLoad ruleSettings s1
  | (Throw e, s1) => (Throw e, s1)
  end.
Proof.
  unfold loadWith, bind at 1.
  destruct (processConfigWith loadPlugin loadAdditionalRule config s)
    as [[rs|e] s1]; [|reflexivity].
  unfold bind at 1. rewrite foldM_configureOption. simpl.
  unfold bind, modify, finishLoad. simpl.
  destruct (unsupportedIn s1 (keys rs)); reflexivity.
Qed.

(** X12. In either engine, [load] never reaches the additional-rule
    loader: its outcome and its effect on the engine are the same whatever
    [this._loadAdditionalRule] is, and a configuration whose
    [additionalRules] is an array -- of rule objects or, in the nodejs
    engine, of glob patterns -- never loads successfully. *)
Theorem load_never_calls_the_additionalRule_loader
    loadPlugin loadAdditionalRule loadAdditionalRule' config s :
  loadWith loadPlugin loadAdditionalRule config s
    = loadWith loadPlugin loadAdditionalRule' config s
  /\ (forall l, Get config "additionalRules" = VArray l ->
        exists e, fst (loadWith loadPlugin loadAdditionalRule config s)
                  = Throw e)
  /\ (forall host l, Get config "additionalRules" = VArray l ->
        (exists e, fst (NodeConfiguration.load host config s) = Throw e)
        /\ exists e, fst (load config s) = Throw e).
Proof.
  assert (Hany : forall lp lar l,
             Get config "additionalRules" = VArray l ->
             exists e, fst (loadWith lp lar config s) = Throw e).
  { intros lp lar l Hget.
    rewrite loadWith_cases, processConfigWith_steps.
    destruct (loadPluginsWith lp config s) as [[[]|e] s1];
      [|now exists e].
    destruct (applyPreset config [] s1) as [[rs|e] s2]; [|now exists e].
    destruct (setFileExtensions config s2) as [[[]|e] s3]; [|now exists e].
    destruct (setExcludedFiles config s3) as [[[]|e] s4]; [|now exists e].
    rewrite (loadAdditionalRules_array config s4 l Hget).
    now exists TypeError. }
  split; [|split].
  - now rewrite !loadWith_cases, !processConfigWith_steps.
  - apply Hany.
  - intros host l Hget. split.
    + apply (Hany _ _ l Hget).
    + rewrite <- load_is_loadWith. apply (Hany _ _ l Hget).
Qed.

(** [{additionalRules: ["rules/*.js"]}] in the nodejs engine. *)
Lemma load_never_calls_the_additionalRule_loader_witness :
  let config := [("additionalRules", VArray [VString "rules/*.js"])] in
  (exists e, fst (NodeConfiguration.load exampleHost config freshState)
             = Throw e)
  /\ NodeConfiguration.load exampleHost config freshState
     = (Throw TypeError, freshState).
Proof.
  cbv zeta. split; [|reflexivity].
  destruct (load_never_calls_the_additionalRule_loader
              _loadPlugin _loadAdditionalRule _loadAdditionalRule
              [("additionalRules", VArray [VString "rules/*.js"])] freshState)
    as (_ & _ & H).
  destruct (H exampleHost [VString "rules/*.js"] eq_refl) as [Hnode _].
  exact Hnode.
Defined.


(** ** X13-X14: plugins of the nodejs engine *)

Lemma Get_assign (config : object) k k' v :
  Get (assign config k v) k' = if k =? k' then v else Get config k'.
Proof. unfold Get. rewrite lookup_assign. now destruct (k =? k'). Qed.

Lemma In_keys_of_Get (config : object) k :
  Get config k <> VUndefined -> In k (keys config).
Proof.
  intros H. destruct (in_dec string_dec k (keys config)) as [Hin|Hin]; auto.
  now rewrite Get_missing in H.
Qed.

Lemma copyOptions_assign_reserved config key v target :
  BUILTIN_OPTIONS key = true ->
  In key (keys config) ->
  copyOptions (assign config key v) target = copyOptions config target.
Proof.
  intros Hkey Hin. unfold copyOptions.
  rewrite keys_assign_present by exact Hin.
  generalize (keys config). intros ks. revert target.
  induction ks as [|k ks IH]; intros target; simpl; auto.
  rewrite IH. f_equal. unfold copyOption.
  destruct (BUILTIN_OPTIONS k) eqn:E; simpl; auto.
  rewrite Get_assign.
  destruct (key =? k) eqn:Ek; auto.
  apply String.eqb_eq in Ek. congruence.
Qed.

Lemma loadPluginsWith_array loadPlugin config l s :
  Get config "plugins" = VArray l ->
  loadPluginsWith loadPlugin config s = forEach l loadPlugin s.
Proof. intros H. unfold loadPluginsWith. now rewrite H. Qed.

(** A plugin entry as the nodejs loader sees it: a string stands for the
    module it resolves to. *)
Lemma node_loadPlugin_resolves host l l' :
  Forall2 (fun entry plugin =>
             match entry with
             | VString id => require host id = Normal plugin
             | _ => plugin = entry
             end) l l' ->
  forall s, forEach l (NodeConfiguration._loadPlugin host) s
            = forEach l' _loadPlugin s.
Proof.
  induction 1 as [|entry plugin l l' Hentry _ IH]; intros s; simpl; auto.
  assert (Hone : NodeConfiguration._loadPlugin host entry s
                 = _loadPlugin plugin s).
  { unfold NodeConfiguration._loadPlugin.
    destruct entry; try (subst plugin; reflexivity).
    unfold bind at 1, host_call. now rewrite Hentry. }
  unfold bind. rewrite Hone.
  destruct (_loadPlugin plugin s) as [[[]|e] s0]; auto.
Qed.

(** X13. The nodejs engine loads a configuration whose [plugins] array
    holds module locators exactly as the base engine loads the same
    configuration with every locator replaced by the module [require]
    resolves it to (entries that are not strings staying as they are):
    same completion, same engine afterwards. *)
Theorem node_load_resolves_plugin_locators host config l l' s :
  Get config "plugins" = VArray l ->
  Forall2 (fun entry plugin =>
             match entry with
             | VString id => require host id = Normal plugin
             | _ => plugin = entry
             end) l l' ->
  NodeConfiguration.load host config s
  = load (assign config "plugins" (VArray l')) s.
Proof.
  intros Hget Hres.
  assert (Hin : In "plugins" (keys config)).
  { apply In_keys_of_Get. rewrite Hget. discriminate. }
  unfold NodeConfiguration.load.
  rewrite loadWith_cases, load_cases.
  rewrite processConfigWith_steps, processConfig_steps.
  assert (Hplug : loadPluginsWith (NodeConfiguration._loadPlugin host) config s
                  = loadPlugins (assign config "plugins" (VArray l')) s).
  { rewrite (loadPluginsWith_array _ _ _ _ Hget).
    rewrite (loadPlugins_array _ l') by now rewrite Get_assign.
    now apply node_loadPlugin_resolves. }
  rewrite Hplug.
  replace (applyPreset (assign config "plugins" (VArray l')))
    with (applyPreset config)
    by (unfold applyPreset; now rewrite Get_assign).
  replace (setFileExtensions (assign config "plugins" (VArray l')))
    with (setFileExtensions config)
    by (unfold setFileExtensions; now rewrite Get_assign).
  replace (setExcludedFiles (assign config "plugins" (VArray l')))
    with (setExcludedFiles config)
    by (unfold setExcludedFiles; now rewrite Get_assign).
  replace (loadAdditionalRules (assign config "plugins" (VArray l')))
    with (loadAdditionalRules config)
    by (unfold loadAdditionalRules; now rewrite Get_assign).
  destruct (loadPlugins (assign config "plugins" (VArray l')) s)
    as [[[]|e] s1]; [|reflexivity].
  destruct (applyPreset config [] s1) as [[rs|e] s2]; [|reflexivity].
  destruct (setFileExtensions config s2) as [[[]|e] s3]; [|reflexivity].
  destruct (setExcludedFiles config s3) as [[[]|e] s4]; [|reflexivity].
  destruct (loadAdditionalRules config s4) as [[[]|e] s5]; [|reflexivity].
  now rewrite copyOptions_assign_reserved.
Qed.

(** [{plugins: ["./my-plugin"], "custom-rule": 5}] in the nodejs engine. *)
Lemma node_load_resolves_plugin_locators_witness :
  let config := [("plugins", VArray [VString "./my-plugin"]);
                 ("custom-rule", VNumber 5)] in
  NodeConfiguration.load exampleHost config freshState
  = load [("plugins",
           VArray [VFunction [CallRegisterRule (mkRule 5 "custom-rule")]]);
          ("custom-rule", VNumber 5)] freshState
  /\ fst (NodeConfiguration.load exampleHost config freshState) = Normal tt.
Proof.
  cbv zeta. split; [|reflexivity].
  apply (node_load_resolves_plugin_locators exampleHost
           [("plugins", VArray [VString "./my-plugin"]);
            ("custom-rule", VNumber 5)]
           [VString "./my-plugin"]
           [VFunction [CallRegisterRule (mkRule 5 "custom-rule")]]
           freshState).
  - reflexivity.
  - constructor; [reflexivity | constructor].
Defined.

(** X14. In the nodejs engine a plugin locator that cannot be resolved
    makes [load] throw the error of [require], and a locator that resolves
    to something other than a function makes it throw the plugin
    assertion error; either way [load] stops at that entry, with the engine
    as the earlier entries left it. *)
Theorem node_load_unusable_plugin_locator
    host config before id after s s1 :
  Get config "plugins" = VArray (before ++ VString id :: after) ->
  forEach before (NodeConfiguration._loadPlugin host) s = (Normal tt, s1) ->
  (forall e, require host id = Throw e ->
     NodeConfiguration.load host config s = (Throw e, s1))
  /\ (forall exports,
        require host id = Normal exports ->
        typeof exports <> "function" ->
        NodeConfiguration.load host config s = (Throw InvalidPlugin, s1)).
Proof.
  intros Hget Hbefore.
  assert (Hstep : forall e,
             NodeConfiguration._loadPlugin host (VString id) s1
             = (Throw e, s1) ->
             NodeConfiguration.load host config s = (Throw e, s1)).
  { intros e He. unfold NodeConfiguration.load.
    rewrite loadWith_cases, processConfigWith_steps.
    rewrite (loadPluginsWith_array _ _ _ _ Hget), forEach_app, Hbefore.
    simpl. unfold bind at 1. now rewrite He. }
  split.
  - intros e He. apply Hstep.
    unfold NodeConfiguration._loadPlugin, bind, host_call.
    now rewrite He.
  - intros exports He Htype. apply Hstep.
    unfold NodeConfiguration._loadPlugin, bind at 1, host_call.
    rewrite He. now apply loadPlugin_not_callable.
Qed.

(** [{plugins: ["./my-plugin", "./missing"]}]: the first plugin has run when
    the second one fails to resolve. *)
Lemma node_load_unusable_plugin_locator_witness :
  let config := [("plugins",
                  VArray [VString "./my-plugin"; VString "./missing"])] in
  NodeConfiguration.load exampleHost config freshState
  = (Throw (Error "Cannot find module"),
     snd (registerRule (mkRule 5 "custom-rule") freshState)).
Proof.
  cbv zeta.
  destruct (node_load_unusable_plugin_locator exampleHost
    [("plugins", VArray [VString "./my-plugin"; VString "./missing"])]
    [VString "./my-plugin"] "./missing" [] freshState
    (snd (registerRule (mkRule 5 "custom-rule") freshState))
    eq_refl eq_refl) as [H _].
  apply H. reflexivity.
Defined.

(** ** X15-X16: additional rules of the nodejs engine *)

Lemma written_absent {A} (ws : list (string * A)) k :
  ~ In k (map fst ws) -> forall a, fold_left (written k) ws a = a.
Proof.
  induction ws as [|w ws IH]; intros Hk a; simpl; auto.
  simpl in Hk. rewrite IH by tauto.
  unfold written. destruct (fst w =? k) eqn:E; auto.
  apply String.eqb_eq in E. tauto.
Qed.

(** After a sequence of writes that binds [k] at least once, a lookup of
    [k] answers one of the values written for [k]. *)
Lemma written_last {A} (ws : list (string * A)) k :
  In k (map fst ws) ->
  forall a, exists v, In (k, v) ws /\ fold_left (written k) ws a = Some v.
Proof.
  induction ws as [|w ws IH] using rev_ind; intros Hin a.
  - contradiction.
  - rewrite fold_left_app. simpl. unfold written at 1.
    destruct (fst w =? k) eqn:E.
    + apply String.eqb_eq in E. exists (snd w). split; [|reflexivity].
      apply in_or_app. right. left. destruct w. simpl in E. now subst.
    + rewrite map_app, in_app_iff in Hin. simpl in Hin.
      apply String.eqb_neq in E.
      destruct Hin as [Hin|[Hin|[]]]; [|contradiction].
      destruct (IH Hin a) as (v & Hv & Hf). exists v.
      split; [apply in_or_app; now left | exact Hf].
Qed.

(** With every key written at most once, the lookup answers the value
    written. *)
Lemma written_once {A} (ws : list (string * A)) k v :
  NoDup (map fst ws) -> In (k, v) ws ->
  forall a, fold_left (written k) ws a = Some v.
Proof.
  induction ws as [|w ws IH]; intros Hnd Hin a; [contradiction|].
  simpl in *. inversion Hnd as [|? ? Hw Hnd']; subst.
  destruct Hin as [->|Hin].
  - unfold written at 2. simpl. rewrite String.eqb_refl.
    now apply written_absent.
  - now apply IH.
Qed.

Lemma registered_after_writes rw s k :
  registered (writeAll rw [] s) k
  = fold_left (written k) rw (registered s k).
Proof. unfold registered. simpl. apply lookup_assignAll. Qed.

Lemma forEach_registerRule_value rules : forall s,
  forEach (map VRule rules) _loadAdditionalRule s
  = (Normal tt, writeAll (map (fun r => (getOptionName r, r)) rules) [] s).
Proof.
  induction rules as [|r rules IH]; intros s; simpl.
  - now rewrite writeAll_nil.
  - unfold bind at 1. simpl. rewrite IH.
    destruct s as [[? ? ? ? ?] ?]. reflexivity.
Qed.

(** One glob match that yields an instance. *)
Lemma node_loadRuleModule_instance host path exports instance s :
  require host path = Normal exports ->
  construct host exports = Normal instance ->
  NodeConfiguration.loadRuleModule host path s
  = _loadAdditionalRule instance s.
Proof.
  intros Hr Hc. unfold NodeConfiguration.loadRuleModule.
  unfold bind at 1, host_call. rewrite Hr.
  unfold bind at 1. now rewrite Hc.
Qed.

Lemma node_forEach_matches host paths rules :
  Forall2 (fun path rule =>
             exists exports,
               require host path = Normal exports
               /\ construct host exports = Normal (VRule rule))
          paths rules ->
  forall s,
    forEach paths (NodeConfiguration.loadRuleModule host) s
    = (Normal tt, writeAll (map (fun r => (getOptionName r, r)) rules) [] s).
Proof.
  intros Hall s. rewrite <- forEach_registerRule_value. revert s.
  induction Hall as [|path rule paths rules (exports & Hr & Hc) _ IH];
    intros s; simpl; auto.
  unfold bind.
  rewrite (node_loadRuleModule_instance _ _ _ _ _ Hr Hc).
  destruct (_loadAdditionalRule (VRule rule) s) as [[[]|e] s0]; auto.
Qed.

(** X15. The nodejs additional-rule loader, given a glob pattern, resolves
    it against the working directory and registers one new instance per
    matching file, in the order of the matches, so that each instance's
    option name ends up registered to an instance of that name; with no
    match it registers nothing and returns. Given anything but a string it
    is the base loader. *)
Theorem node_loadAdditionalRule_registers_every_match host pattern s :
  let paths :=
    glob_sync host (path_resolve host (process_cwd host) pattern) in
  (paths = [] ->
     NodeConfiguration._loadAdditionalRule host (VString pattern) s
     = (Normal tt, s))
  /\ (forall rules,
        Forall2 (fun path rule =>
                   exists exports,
                     require host path = Normal exports
                     /\ construct host exports = Normal (VRule rule))
                paths rules ->
        NodeConfiguration._loadAdditionalRule host (VString pattern) s
        = (Normal tt,
           writeAll (map (fun r => (getOptionName r, r)) rules) [] s)
        /\ forall rule, In rule rules ->
             exists rule', In rule' rules
               /\ getOptionName rule' = getOptionName rule
               /\ registered
                    (snd (NodeConfiguration._loadAdditionalRule host
                            (VString pattern) s))
                    (getOptionName rule) = Some rule')
  /\ (forall v, (forall p, v <> VString p) ->
        NodeConfiguration._loadAdditionalRule host v s
        = _loadAdditionalRule v s).
Proof.
  intros paths. split; [|split].
  - intros Hnone. unfold NodeConfiguration._loadAdditionalRule.
    fold paths. now rewrite Hnone.
  - intros rules Hall.
    assert (Hrun : NodeConfiguration._loadAdditionalRule host
                     (VString pattern) s
                   = (Normal tt,
                      writeAll (map (fun r => (getOptionName r, r)) rules)
                        [] s)).
    { unfold NodeConfiguration._loadAdditionalRule. fold paths.
      now apply node_forEach_matches. }
    split; [exact Hrun|].
    intros rule Hin. rewrite Hrun. simpl snd.
    rewrite registered_after_writes.
    destruct (written_last (map (fun r => (getOptionName r, r)) rules)
                (getOptionName rule)) with (a := registered s (getOptionName rule))
      as (rule' & Hin' & Hlast).
    { rewrite map_map. simpl.
      apply (in_map getOptionName) in Hin. exact Hin. }
    apply in_map_iff in Hin'. destruct Hin' as (r & Heq & Hr).
    injection Heq as Hname ->.
    exists rule'. auto.
  - intros v Hv. destruct v; try reflexivity. now destruct (Hv s0).
Qed.

(** ["rules/*.js"] matches two rule files. *)
Lemma node_loadAdditionalRule_registers_every_match_witness :
  let s' := snd (NodeConfiguration._loadAdditionalRule exampleHost
                   (VString "rules/*.js") freshState) in
  registered s' "ruleA" = Some (mkRule 6 "ruleA")
  /\ registered s' "ruleB" = Some (mkRule 7 "ruleB")
  /\ NodeConfiguration._loadAdditionalRule exampleHost
       (VString "rules/*.js") freshState
     = (Normal tt,
        writeAll [("ruleA", mkRule 6 "ruleA"); ("ruleB", mkRule 7 "ruleB")]
          [] freshState).
Proof.
  cbv zeta. split; [reflexivity|]. split; [reflexivity|].
  destruct (node_loadAdditionalRule_registers_every_match exampleHost
              "rules/*.js" freshState) as (_ & H & _).
  apply (H [mkRule 6 "ruleA"; mkRule 7 "ruleB"]).
  constructor.
  - eexists. split; reflexivity.
  - constructor; [|constructor]. eexists. split; reflexivity.
Defined.

(** X16. When the file of a match cannot be loaded, cannot be
    instantiated, or yields something that is not an object, the nodejs
    additional-rule loader throws at that match -- the error of [require],
    the error of the constructor, or the additional-rule assertion error --
    and the instances of the earlier matches stay registered; later matches
    are not looked at. *)
Theorem node_loadAdditionalRule_stops_at_first_failure
    host pattern s before path after rules :
  glob_sync host (path_resolve host (process_cwd host) pattern)
    = (before ++ path :: after)%list ->
  Forall2 (fun path rule =>
             exists exports,
               require host path = Normal exports
               /\ construct host exports = Normal (VRule rule))
          before rules ->
  let s1 := writeAll (map (fun r => (getOptionName r, r)) rules) [] s in
  (forall e, require host path = Throw e ->
     NodeConfiguration._loadAdditionalRule host (VString pattern) s
     = (Throw e, s1))
  /\ (forall exports e,
        require host path = Normal exports ->
        construct host exports = Throw e ->
        NodeConfiguration._loadAdditionalRule host (VString pattern) s
        = (Throw e, s1))
  /\ (forall exports instance,
        require host path = Normal exports ->
        construct host exports = Normal instance ->
        typeof instance <> "object" ->
        NodeConfiguration._loadAdditionalRule host (VString pattern) s
        = (Throw InvalidAdditionalRule, s1)).
Proof.
  intros Hglob Hbefore s1.
  assert (Hstep : forall e,
             NodeConfiguration.loadRuleModule host path s1 = (Throw e, s1) ->
             NodeConfiguration._loadAdditionalRule host (VString pattern) s
             = (Throw e, s1)).
  { intros e He. unfold NodeConfiguration._loadAdditionalRule.
    rewrite Hglob, forEach_app.
    rewrite (node_forEach_matches host before rules Hbefore s).
    fold s1. simpl. unfold bind at 1. now rewrite He. }
  split; [|split].
  - intros e He. apply Hstep.
    unfold NodeConfiguration.loadRuleModule, bind, host_call.
    now rewrite He.
  - intros exports e Hr Hc. apply Hstep.
    unfold NodeConfiguration.loadRuleModule, bind at 1, host_call.
    rewrite Hr. unfold bind. now rewrite Hc.
  - intros exports instance Hr Hc Htype. apply Hstep.
    rewrite (node_loadRuleModule_instance _ _ _ _ _ Hr Hc).
    destruct instance; simpl in Htype; try congruence; reflexivity.
Qed.

(** ["broken/*.js"]: the first match is registered, the second cannot be
    loaded, the third is never reached. *)
Lemma node_loadAdditionalRule_stops_at_first_failure_witness :
  let r := NodeConfiguration._loadAdditionalRule exampleHost
             (VString "broken/*.js") freshState in
  r = (Throw (Error "Cannot find module"),
       writeAll [("ruleA", mkRule 6 "ruleA")] [] freshState)
  /\ registered (snd r) "ruleB" = None.
Proof.
  cbv zeta. split; [|reflexivity].
  destruct (node_loadAdditionalRule_stops_at_first_failure exampleHost
              "broken/*.js" freshState
              ["/project/rules/a.js"] "/project/broken/x.js"
              ["/project/rules/b.js"] [mkRule 6 "ruleA"]) as (H & _).
  - reflexivity.
  - constructor; [|constructor]. eexists. split; reflexivity.
  - apply H. reflexivity.
Defined.

(** ** X17-X18: the built-in catalogues *)

Lemma forEach_registerRule {A} (f : A -> Rule) l : forall s,
  forEach l (fun x => registerRule (f x)) s
  = (Normal tt, writeAll (map (fun x => (getOptionName (f x), f x)) l) [] s).
Proof.
  induction l as [|x l IH]; intros s; simpl.
  - now rewrite writeAll_nil.
  - unfold bind at 1. simpl. rewrite IH.
    destruct s as [[? ? ? ? ?] ?]. reflexivity.
Qed.

(** X17. [registerDefaultRules] always returns and touches nothing but the
    rule registry. Afterwards the option name of every built-in rule is
    registered to a built-in rule of that name -- to that very rule when
    the built-in option names are pairwise different -- and every other
    name is registered as before. *)
Theorem registerDefaultRules_registers_the_catalogue newRule s :
  let s' := snd (registerDefaultRules newRule s) in
  let name := fun module => getOptionName (newRule module) in
  fst (registerDefaultRules newRule s) = Normal tt
  /\ _presets (this s') = _presets (this s)
  /\ getFileExtensions s' = getFileExtensions s
  /\ getExcludedFiles s' = getExcludedFiles s
  /\ getConfiguredRules s' = getConfiguredRules s
  /\ (forall module, In module defaultRuleModules ->
        exists module', In module' defaultRuleModules
          /\ name module' = name module
          /\ registered s' (name module) = Some (newRule module'))
  /\ (NoDup (map name defaultRuleModules) ->
      forall module, In module defaultRuleModules ->
        registered s' (name module) = Some (newRule module))
  /\ (forall k, (forall module, In module defaultRuleModules ->
                   name module <> k) ->
        registered s' k = registered s k).
Proof.
  intros s' name. unfold s', registerDefaultRules.
  generalize defaultRuleModules. intros l.
  rewrite forEach_registerRule. cbn [fst snd].
  repeat (split; [reflexivity|]).
  split; [|split].
  - intros module Hin. rewrite registered_after_writes.
    destruct (written_last
                (map (fun x => (getOptionName (newRule x), newRule x)) l)
                (name module)) with (a := registered s (name module))
      as (rule' & Hin' & Hlast).
    { rewrite map_map. simpl. apply (in_map name) in Hin. exact Hin. }
    apply in_map_iff in Hin'. destruct Hin' as (m' & Heq & Hm').
    injection Heq as Hname <-.
    exists m'. auto.
  - intros Hnd module Hin. rewrite registered_after_writes.
    apply written_once.
    + now rewrite map_map.
    + apply in_map_iff. exists module. auto.
  - intros k Hk. rewrite registered_after_writes.
    apply written_absent. rewrite map_map. simpl.
    intros Hin. apply in_map_iff in Hin. destruct Hin as (m & Hm & Hin).
    now apply (Hk m).
Qed.

(** With option names that tell the modules apart. *)
Lemma registerDefaultRules_registers_the_catalogue_witness :
  let newRule := fun module => mkRule 0 module in
  registered (snd (registerDefaultRules newRule freshState))
    "./../rules/validate-jsdoc"
  = Some (newRule "./../rules/validate-jsdoc").
Proof.
  cbv zeta.
  destruct (registerDefaultRules_registers_the_catalogue
              (fun module => mkRule 0 module) freshState)
    as (_ & _ & _ & _ & _ & H & _).
  destruct (H "./../rules/validate-jsdoc") as (m' & _ & Hname & Hreg).
  - unfold defaultRuleModules. simpl. tauto.
  - simpl in Hname. subst m'. exact Hreg.
Defined.

(** X18. [registerDefaultPresets] always returns and registers exactly the
    seven built-in presets, each with the contents of its file: any other
    preset name, and the rule registry, are as before. *)
Theorem registerDefaultPresets_registers_the_catalogue requireJson s :
  let s' := snd (registerDefaultPresets requireJson s) in
  fst (registerDefaultPresets requireJson s) = Normal tt
  /\ (forall name, In name defaultPresetNames ->
        lookup (_presets (this s')) name
        = Some (requireJson ("../../presets/" ++ name ++ ".json")))
  /\ (forall name, ~ In name defaultPresetNames ->
        lookup (_presets (this s')) name = lookup (_presets (this s)) name)
  /\ _rules (this s') = _rules (this s).
Proof.
  intros s'.
  assert (Hrun : registerDefaultPresets requireJson s
                 = (Normal tt,
                    writeAll []
                      (map (fun name =>
                              (name,
                               requireJson
                                 ("../../presets/" ++ name ++ ".json")))
                           defaultPresetNames) s)).
  { destruct s as [[? ? ? ? ?] ?]. reflexivity. }
  unfold s'. rewrite Hrun. cbn [fst snd].
  split; [reflexivity|]. split; [|split; [|reflexivity]].
  - intros name Hin.
    change (_presets (this (writeAll [] ?pw s)))
      with (assignAll pw (_presets (this s))).
    rewrite lookup_assignAll. apply written_once.
    + rewrite map_map. simpl.
      repeat constructor; simpl; intuition discriminate.
    + apply in_map_iff. exists name. auto.
  - intros name Hnot.
    change (_presets (this (writeAll [] ?pw s)))
      with (assignAll pw (_presets (this s))).
    rewrite lookup_assignAll. apply written_absent.
    rewrite map_map. simpl. exact Hnot.
Qed.

Lemma registerDefaultPresets_registers_the_catalogue_witness :
  let requireJson := fun file => [("file", VString file)] in
  lookup (_presets (this (snd (registerDefaultPresets requireJson freshState))))
    "google"
  = Some [("file", VString "../../presets/google.json")].
Proof.
  cbv zeta.
  destruct (registerDefaultPresets_registers_the_catalogue
              (fun file => [("file", VString file)]) freshState)
    as (_ & H & _).
  apply (H "google"). simpl. tauto.
Defined.

